(** * fan_control.py: a temperature-driven PWM fan controller

    A shallow embedding of [src/fan_control.py] and the properties of its
    hysteresis-and-ramp policy, of its start-up and of its shutdown path.

    Numbers.  The thresholds and duty bounds are Python [int]s ([Z] here).
    The temperature is [float(f.read()) / 1000] and the ramp is computed in
    floating point; both are idealised as exact rationals ([Q]): the model
    keeps every comparison and every operation of the source, and leaves
    binary64 rounding out.  Equality of duties is therefore [Qeq] ([==]).
    A value of the ramp in the model is the value of the source up to
    that rounding: what is stated of it is its bounds, its order, and its
    value at readings where nothing is rounded.  The ramp is also given
    in binary64 ([ramp_binary64]), to evaluate it at given readings.

    Effects.  The script talks to a thermal-zone file, to lgpio, to the
    clock and to the logger, and keeps one module-level latch.  The model
    threads a [World] through a state-and-exception monad; the answers of
    the hardware are given by a [Hardware] oracle indexed by call number.
    Ctrl-C is delivered while the script sleeps.  The loop of [main] takes
    a bound on its iterations; [Running] is the outcome of a run that is
    still looping when the bound is reached. *)

From Stdlib Require Import ZArith QArith Lia Lqa List Bool String PrimFloat.
From stdpp Require Import gmap strings.
Import ListNotations.

Local Open Scope Z_scope.

(** ** Module-level constants (lines 13-27) *)

Definition DEFAULT_CONFIG_FILE : string := "/etc/fan_control.conf".
Definition DEFAULT_PWM_GPIO_NR : Z := 14.
Definition DEFAULT_WAIT_TIME : Z := 10.
Definition DEFAULT_PWM_FREQ : Z := 10000.

Definition DEFAULT_MIN_TEMP : Z := 55.
Definition DEFAULT_MIN_TEMP_COLLING : Z := 50.
Definition DEFAULT_MAX_TEMP : Z := 75.
Definition DEFAULT_FAN_LOW : Z := 50.
Definition DEFAULT_FAN_HIGH : Z := 100.
Definition DEFAULT_FAN_OFF : Z := 0.
Definition DEFAULT_FAN_MAX : Z := 100.

(** ** Python numbers *)

(** [x < y] on numbers; [x > y] is [Qltb y x]. *)
Definition Qltb (x y : Q) : bool := negb (Qle_bool y x).

(** [int(x)]: truncation towards zero. *)
Definition py_int (x : Q) : Z := Z.quot (Qnum x) (Z.pos (Qden x)).

(** ** Exceptions and outcomes *)

Inductive Exn : Type :=
| IOError
| ValueError
| LgpioError
| ZeroDivisionError
| InterpolationError
| UnboundLocalError
| KeyboardInterrupt
| SystemExit (code : Z).

(** [isinstance(e, Exception)]: [KeyboardInterrupt] and [SystemExit] derive
    from [BaseException] only. *)
Definition is_Exception (e : Exn) : bool :=
  match e with
  | KeyboardInterrupt | SystemExit _ => false
  | _ => true
  end.

(** The outcome of running a piece of the script: a value, a raised
    exception, or [Running] when the fuel given to [while True] ran out
    with the loop still going. *)
Inductive Outcome (A : Type) : Type :=
| Ok (a : A)
| Raise (e : Exn)
| Running.
Arguments Ok {A} a.
Arguments Raise {A} e.
Arguments Running {A}.

(** ** The namespace [args] *)

Record Args : Type := mkArgs {
  config : string;
  min_temp : Z;
  min_cool_temp : Z;
  max_temp : Z;
  fan_low : Z;
  fan_high : Z;
  wait_time : Z;
  pwm_gpio : Z;
  pwm_freq : Z;
  verbose : bool
}.

(** ** The outside world *)

(** What reading the thermal-zone file gives: text that [float] reads as
    a number (the kernel prints millidegrees), an [IOError], or text that
    [float] rejects.  Text that [float] reads as [nan] is none of these
    and has no case here: what is stated of a tick is stated for the
    three answers below. *)
Inductive SensorRead : Type :=
| FileText (milli : Q)
| FileUnreadable
| FileGarbage.

Record Hardware : Type := mkHardware {
  sensor : nat -> SensorRead;        (* the n-th read of the thermal file *)
  tx_pwm_ok : nat -> bool;           (* does the n-th lgpio.tx_pwm succeed *)
  sleep_interrupted : nat -> bool;   (* is the n-th time.sleep hit by Ctrl-C *)
  chip_open : option Z;              (* handle of gpiochip_open(0), if any *)
  claim_ok : bool;                   (* does gpio_claim_output succeed *)
  close_ok : bool                    (* does gpiochip_close succeed *)
}.

Inductive Level : Type := INFO | ERROR | CRITICAL.

Inductive Msg : Type :=
| MsgStarting (settings : Args)          (* "Starting fan control with ..." *)
| MsgFanSpeed (percent : Z) (temp : Q)   (* "Fan speed: ..%, Temperature: .." *)
| MsgReadFailed                          (* "Failed to read CPU temperature" *)
| MsgSetFailed                           (* "Failed to set fan speed" *)
| MsgShutdownComplete                    (* "Fan control shutdown complete." *)
| MsgShutdownError (e : Exn)             (* "Error during shutdown" *)
| MsgInterrupt                           (* "Keyboard interrupt received..." *)
| MsgCritical (e : Exn).                 (* "Critical error occurred" *)

(** What the script did to the outside, in order. *)
Inductive Event : Type :=
| EvTxPwm (fan gpio freq : Z) (duty : Q)
| EvClaim (fan gpio : Z)
| EvClose (fan : Z)
| EvSleep (secs : Z)
| EvLog (lvl : Level) (msg : Msg).

Record World : Type := mkWorld {
  REMAIN_ACTIVATED : bool;     (* the global latch, only ever 0 or 1 *)
  fan_control : option Z;      (* the local of [main], [None] while unbound *)
  reads : nat;                 (* reads of the thermal file so far *)
  pwm_calls : nat;             (* calls of lgpio.tx_pwm so far *)
  sleeps : nat;                (* calls of time.sleep so far *)
  trace : list Event
}.

Definition initial_world : World :=
  {| REMAIN_ACTIVATED := false; fan_control := None;
     reads := 0; pwm_calls := 0; sleeps := 0; trace := [] |}.

(** ** The monad of the script *)

Definition M (A : Type) : Type := World -> Outcome A * World.

#[global] Instance M_ret : MRet M := fun A a w => (Ok a, w).

#[global] Instance M_bind : MBind M :=
  fun A B k m w =>
    match m w with
    | (Ok a, w1) => k a w1
    | (Raise e, w1) => (Raise e, w1)
    | (Running, w1) => (Running, w1)
    end.

Definition raise {A} (e : Exn) : M A := fun w => (Raise e, w).

(** [try: body / except <those e with handler e = Some h>: h]. *)
Definition try_except {A} (body : M A) (handler : Exn -> option (M A)) : M A :=
  fun w =>
    match body w with
    | (Raise e, w1) =>
        match handler e with
        | Some h => h w1
        | None => (Raise e, w1)
        end
    | r => r
    end.

(** [try: body / finally: fin]: [fin] runs on every exit of [body]; what
    [fin] raises replaces what [body] did. *)
Definition try_finally {A} (body : M A) (fin : M unit) : M A :=
  fun w =>
    match body w with
    | (Running, w1) => (Running, w1)
    | (r, w1) =>
        match fin w1 with
        | (Ok _, w2) => (r, w2)
        | (Raise e, w2) => (Raise e, w2)
        | (Running, w2) => (Running, w2)
        end
    end.

(** Updates of one field of the world. *)
Definition push (ev : Event) (w : World) : World :=
  {| REMAIN_ACTIVATED := REMAIN_ACTIVATED w; fan_control := fan_control w;
     reads := reads w; pwm_calls := pwm_calls w; sleeps := sleeps w;
     trace := trace w ++ [ev] |}.

Definition with_latch (b : bool) (w : World) : World :=
  {| REMAIN_ACTIVATED := b; fan_control := fan_control w;
     reads := reads w; pwm_calls := pwm_calls w; sleeps := sleeps w;
     trace := trace w |}.

Definition with_fan_control (h : Z) (w : World) : World :=
  {| REMAIN_ACTIVATED := REMAIN_ACTIVATED w; fan_control := Some h;
     reads := reads w; pwm_calls := pwm_calls w; sleeps := sleeps w;
     trace := trace w |}.

Definition tick_reads (w : World) : World :=
  {| REMAIN_ACTIVATED := REMAIN_ACTIVATED w; fan_control := fan_control w;
     reads := S (reads w); pwm_calls := pwm_calls w; sleeps := sleeps w;
     trace := trace w |}.

Definition tick_pwm_calls (w : World) : World :=
  {| REMAIN_ACTIVATED := REMAIN_ACTIVATED w; fan_control := fan_control w;
     reads := reads w; pwm_calls := S (pwm_calls w); sleeps := sleeps w;
     trace := trace w |}.

Definition tick_sleeps (w : World) : World :=
  {| REMAIN_ACTIVATED := REMAIN_ACTIVATED w; fan_control := fan_control w;
     reads := reads w; pwm_calls := pwm_calls w; sleeps := S (sleeps w);
     trace := trace w |}.

Definition emit (ev : Event) : M unit := fun w => (Ok tt, push ev w).

Definition logging (lvl : Level) (msg : Msg) : M unit := emit (EvLog lvl msg).

(** Reading and assigning the global [REMAIN_ACTIVATED]. *)
Definition get_REMAIN_ACTIVATED : M bool :=
  fun w => (Ok (REMAIN_ACTIVATED w), w).

Definition set_REMAIN_ACTIVATED (b : bool) : M unit :=
  fun w => (Ok tt, with_latch b w).

Definition set_fan_control (h : Z) : M unit :=
  fun w => (Ok tt, with_fan_control h w).

(** Reading the local [fan_control]: [UnboundLocalError] before its
    assignment. *)
Definition get_fan_control : M Z :=
  fun w =>
    match fan_control w with
    | Some h => (Ok h, w)
    | None => (Raise UnboundLocalError, w)
    end.

(** [x / y] with [y] an [int]. *)
Definition py_truediv (x : Q) (y : Z) : M Q :=
  if Z.eqb y 0 then raise ZeroDivisionError else mret (x / inject_Z y)%Q.

(** ** Calls into the outside world *)

Section Script.

Variable hw : Hardware.
Variable args : Args.

(** [float(open(thermal_zone0/temp).read())] *)
Definition read_thermal_file : M Q :=
  fun w =>
    match sensor hw (reads w) with
    | FileText milli => (Ok milli, tick_reads w)
    | FileUnreadable => (Raise IOError, tick_reads w)
    | FileGarbage => (Raise ValueError, tick_reads w)
    end.

Definition lgpio_tx_pwm (fan gpio freq : Z) (duty : Q) : M unit :=
  fun w =>
    if tx_pwm_ok hw (pwm_calls w)
    then emit (EvTxPwm fan gpio freq duty) (tick_pwm_calls w)
    else (Raise LgpioError, tick_pwm_calls w).

Definition lgpio_gpiochip_open (chip : Z) : M Z :=
  match chip_open hw with
  | Some h => mret h
  | None => raise LgpioError
  end.

Definition lgpio_gpio_claim_output (fan gpio : Z) : M unit :=
  if claim_ok hw then emit (EvClaim fan gpio) else raise LgpioError.

Definition lgpio_gpiochip_close (fan : Z) : M unit :=
  if close_ok hw then emit (EvClose fan) else raise LgpioError.

(** [time.sleep(secs)] for [secs >= 0]: it returns, or Ctrl-C arrives.
    The [ValueError] of a negative [secs] is not modelled; a statement
    that needs the sleep to return for every configuration assumes
    [0 <= wait_time]. *)
Definition time_sleep (secs : Z) : M unit :=
  fun w =>
    if sleep_interrupted hw (sleeps w)
    then (Raise KeyboardInterrupt, tick_sleeps w)
    else emit (EvSleep secs) (tick_sleeps w).

(** ** The functions of the script *)

(** Lines 30-45. *)
Definition get_cpu_temperature : M Q :=
  try_except
    (raw ← read_thermal_file; mret (raw / 1000)%Q)
    (fun e =>
       match e with
       | IOError => Some (logging ERROR MsgReadFailed;; raise e)
       | _ => None
       end).

(** Lines 47-64. *)
Definition set_fan_speed (fan : Z) (speed curr_temp : Q) : M unit :=
  try_except
    (lgpio_tx_pwm fan (pwm_gpio args) (pwm_freq args) speed;;
     logging INFO (MsgFanSpeed (py_int speed) curr_temp))
    (fun e =>
       match e with
       | LgpioError => Some (logging ERROR MsgSetFailed;; raise e)
       | _ => None
       end).

(** Lines 66-100. *)
Definition handle_fan_speed (fan : Z) : M unit :=
  curr_temp ← get_cpu_temperature;
  activated ← get_REMAIN_ACTIVATED;
  (* Let the fan off *)
  if negb activated && Qltb curr_temp (inject_Z (min_temp args))
  then set_fan_speed fan (inject_Z DEFAULT_FAN_OFF) curr_temp
  else
    set_REMAIN_ACTIVATED true;;
    (* Turn off the fan *)
    if Qltb curr_temp (inject_Z (min_cool_temp args))
    then
      set_fan_speed fan (inject_Z DEFAULT_FAN_OFF) curr_temp;;
      set_REMAIN_ACTIVATED false
    (* Enter in fan cooling mode *)
    else if Qltb curr_temp (inject_Z (min_temp args))
    then set_fan_speed fan (inject_Z DEFAULT_FAN_LOW) curr_temp
    (* Set fan speed to maximum speed *)
    else if Qltb (inject_Z (max_temp args)) curr_temp
    then set_fan_speed fan (inject_Z DEFAULT_FAN_MAX) curr_temp
    (* Dynamic fan speed *)
    else
      adaptive_percentage ←
        py_truediv (curr_temp - inject_Z (min_temp args))%Q
                   (max_temp args - min_temp args);
      let fan_activation_range := fan_high args - fan_low args in
      let new_speed :=
        (inject_Z (fan_low args)
         + inject_Z fan_activation_range * adaptive_percentage)%Q in
      set_fan_speed fan new_speed curr_temp.

(** Lines 103-115. *)
Definition shutdown (fan : Z) : M unit :=
  try_except
    (set_fan_speed fan (inject_Z DEFAULT_FAN_LOW) (inject_Z (min_temp args));;
     lgpio_gpiochip_close fan;;
     logging INFO MsgShutdownComplete)
    (fun e =>
       if is_Exception e
       then Some (logging ERROR (MsgShutdownError e))
       else None).

(** Lines 132-134; [fuel] bounds the number of iterations that are run. *)
Fixpoint while_True (fuel : nat) : M unit :=
  match fuel with
  | O => fun w => (Running, w)
  | S fuel' =>
      fan ← get_fan_control;
      handle_fan_speed fan;;
      time_sleep (wait_time args);;
      while_True fuel'
  end.

(** The [try] suite of [main], lines 128-134. *)
Definition main_try (fuel : nat) : M unit :=
  h ← lgpio_gpiochip_open 0;
  set_fan_control h;;
  fan ← get_fan_control;
  lgpio_gpio_claim_output fan (pwm_gpio args);;
  fan ← get_fan_control;
  set_fan_speed fan (inject_Z (fan_low args)) (inject_Z (min_temp args));;
  while_True fuel.

(** The [except] clauses of [main], lines 135-139. *)
Definition main_except (e : Exn) : option (M unit) :=
  match e with
  | KeyboardInterrupt => Some (logging INFO MsgInterrupt)
  | _ =>
      if is_Exception e
      then Some (logging CRITICAL (MsgCritical e);; raise (SystemExit 1))
      else None
  end.

(** The [finally] clause of [main], lines 140-141. *)
Definition main_finally : M unit :=
  fan ← get_fan_control;
  shutdown fan.

(** Lines 117-141. *)
Definition main (fuel : nat) : M unit :=
  try_finally (try_except (main_try fuel) main_except) main_finally.

End Script.

(** ** Start-up: command line and configuration file *)

(** The options given on the command line, already converted by
    [type=int]; [None] for an option that was not given. *)
Record CommandLine : Type := mkCommandLine {
  opt_config : option string;
  opt_min_temp : option Z;
  opt_min_cool_temp : option Z;
  opt_max_temp : option Z;
  opt_fan_low : option Z;
  opt_fan_high : option Z;
  opt_wait_time : option Z;
  opt_pwm_gpio : option Z;
  opt_pwm_freq : option Z;
  opt_verbose : bool
}.

Definition no_options : CommandLine :=
  mkCommandLine None None None None None None None None None false.

(** Lines 143-161. *)
Definition arguments_parsing (cli : CommandLine) : Args :=
  {| config := default DEFAULT_CONFIG_FILE (opt_config cli);
     min_temp := default DEFAULT_MIN_TEMP (opt_min_temp cli);
     min_cool_temp := default DEFAULT_MIN_TEMP_COLLING (opt_min_cool_temp cli);
     max_temp := default DEFAULT_MAX_TEMP (opt_max_temp cli);
     fan_low := default DEFAULT_FAN_LOW (opt_fan_low cli);
     fan_high := default DEFAULT_FAN_HIGH (opt_fan_high cli);
     wait_time := default DEFAULT_WAIT_TIME (opt_wait_time cli);
     pwm_gpio := default DEFAULT_PWM_GPIO_NR (opt_pwm_gpio cli);
     pwm_freq := default DEFAULT_PWM_FREQ (opt_pwm_freq cli);
     verbose := opt_verbose cli |}.

(** The text of an option in the configuration file.  [ConfigParser]
    interpolates the text ([%(name)s], [%%]) before [int] sees it: the
    interpolated text is one that [int] converts, or one that it rejects;
    or the interpolation itself fails, as on a lone [%]. *)
Inductive IniValue : Type :=
| IntText (z : Z)
| OtherText (s : string)
| BadInterpolation (s : string).

(** A parsed configuration file, as the parser presents it: section name
    to option name to text. *)
Abbreviation Ini := (gmap string (gmap string IniValue)).

(** [config.getint(section, option, fallback=fallback)]: the fallback
    stands in for a missing section or option, not for a bad value.
    [InterpolationError] stands for its subclasses, among them
    [InterpolationSyntaxError]. *)
Definition getint (cfg : Ini) (section option : string) (fallback : Z) : M Z :=
  match cfg !! section with
  | None => mret fallback
  | Some opts =>
      match opts !! option with
      | None => mret fallback
      | Some (IntText z) => mret z
      | Some (OtherText _) => raise ValueError
      | Some (BadInterpolation _) => raise InterpolationError
      end
  end.

(** Lines 163-185; the updated namespace is returned. *)
Definition config_parsing (cfg : Ini) (args : Args) : M Args :=
  v_min_temp ← getint cfg "FanControl" "min_temp" (min_temp args);
  v_min_cool_temp ← getint cfg "FanControl" "min_cool_temp" (min_cool_temp args);
  v_max_temp ← getint cfg "FanControl" "max_temp" (max_temp args);
  v_fan_low ← getint cfg "FanControl" "fan_low" (fan_low args);
  v_fan_high ← getint cfg "FanControl" "fan_high" (fan_high args);
  v_wait_time ← getint cfg "FanControl" "wait_time" (wait_time args);
  v_pwm_gpio ← getint cfg "FanControl" "pwm_gpio" (pwm_gpio args);
  v_pwm_freq ← getint cfg "FanControl" "pwm_freq" (pwm_freq args);
  mret {| config := config args;
          min_temp := v_min_temp;
          min_cool_temp := v_min_cool_temp;
          max_temp := v_max_temp;
          fan_low := v_fan_low;
          fan_high := v_fan_high;
          wait_time := v_wait_time;
          pwm_gpio := v_pwm_gpio;
          pwm_freq := v_pwm_freq;
          verbose := verbose args |}.

(** Lines 189-193: everything the script does to [args] before [main];
    [files] maps the paths that exist to their parsed content. *)
Definition startup (cli : CommandLine) (files : gmap string Ini) : M Args :=
  let args := arguments_parsing cli in
  match files !! config args with
  | Some cfg => config_parsing cfg args
  | None => mret args
  end.

(** Lines 188-206: the whole script. *)
Definition script (hw : Hardware) (cli : CommandLine)
    (files : gmap string Ini) (fuel : nat) : M unit :=
  args ← startup cli files;
  logging INFO (MsgStarting args);;
  try_except (main hw args fuel)
    (fun e =>
       match e with
       | SystemExit code => Some (raise (SystemExit code))
       | _ => None
       end).

(** ** Observations *)

(** The duty cycles handed to the PWM output, oldest first. *)
Fixpoint duties (tr : list Event) : list Q :=
  match tr with
  | [] => []
  | EvTxPwm _ _ _ d :: tr' => d :: duties tr'
  | _ :: tr' => duties tr'
  end.

Definition default_args : Args := arguments_parsing no_options.

Definition quiet_hw (temps : nat -> Q) : Hardware :=
  {| sensor := fun n => FileText (temps n * 1000)%Q;
     tx_pwm_ok := fun _ => true;
     sleep_interrupted := fun _ => false;
     chip_open := Some 7;
     claim_ok := true;
     close_ok := true |}.

Definition engaged_world : World :=
  {| REMAIN_ACTIVATED := true; fan_control := Some 7;
     reads := 0; pwm_calls := 1; sleeps := 0; trace := [] |}.

Definition idle_world : World :=
  {| REMAIN_ACTIVATED := false; fan_control := Some 7;
     reads := 0; pwm_calls := 1; sleeps := 0; trace := [] |}.

(** The thresholds and duty bounds that the specification calls valid. *)
Definition valid_thresholds (args : Args) : Prop :=
  min_cool_temp args < min_temp args < max_temp args.

Definition valid_duty_bounds (args : Args) : Prop :=
  0 <= fan_low args /\ fan_low args <= fan_high args /\ fan_high args <= 100.

Definition valid_config (args : Args) : Prop :=
  valid_thresholds args /\ valid_duty_bounds args.

(** The temperature, in degrees, for a thermal file holding [milli]. *)
Definition celsius (milli : Q) : Q := (milli / 1000)%Q.

(** ** Worlds after a tick, and what the statements observe *)

(** The world after a tick that read [t], wrote [d] and left the latch
    at [latch]. *)
Definition ticked (args : Args) (w : World) (latch : bool) (fan : Z)
    (d t : Q) : World :=
  {| REMAIN_ACTIVATED := latch; fan_control := fan_control w;
     reads := S (reads w); pwm_calls := S (pwm_calls w); sleeps := sleeps w;
     trace := trace w ++ [EvTxPwm fan (pwm_gpio args) (pwm_freq args) d;
                          EvLog INFO (MsgFanSpeed (py_int d) t)] |}.

(** The world after a tick that read the sensor and whose write failed. *)
Definition write_failed (w : World) (latch : bool) : World :=
  {| REMAIN_ACTIVATED := latch; fan_control := fan_control w;
     reads := S (reads w); pwm_calls := S (pwm_calls w); sleeps := sleeps w;
     trace := trace w ++ [EvLog ERROR MsgSetFailed] |}.

(** The world when the loop is entered. *)
Definition loop_entry (args : Args) (h : Z) (w : World) : World :=
  push (EvLog INFO (MsgFanSpeed (py_int (inject_Z (fan_low args)))
                      (inject_Z (min_temp args))))
    (push (EvTxPwm h (pwm_gpio args) (pwm_freq args)
             (inject_Z (fan_low args)))
       (tick_pwm_calls (push (EvClaim h (pwm_gpio args))
                          (with_fan_control h w)))).

(** A tick from [w] returns, hands exactly one duty cycle, equal to [d],
    to the PWM output, and leaves the latch at [latch]. *)
Definition tick_emits (hw : Hardware) (args : Args) (fan : Z) (w : World)
    (d : Q) (latch : bool) : Prop :=
  exists w' d',
    handle_fan_speed hw args fan w = (Ok tt, w') /\
    duties (trace w') = duties (trace w) ++ [d'] /\
    (d' == d)%Q /\
    REMAIN_ACTIVATED w' = latch.

(** The formula of the ramp as the specification writes it. *)
Definition ramp_formula (args : Args) (t : Q) : Q :=
  (inject_Z (fan_low args)
   + (inject_Z (fan_high args) - inject_Z (fan_low args))
     * (t - inject_Z (min_temp args))
     / (inject_Z (max_temp args) - inject_Z (min_temp args)))%Q.

(** A temperature, in millidegrees, above every threshold of [args]. *)
Definition hot_milli (args : Args) : Q :=
  (inject_Z
     (Z.max (max_temp args) (Z.max (min_temp args) (min_cool_temp args)) + 1)
   * 1000)%Q.

(** Each run of [shutdown] reports exactly once, on either of its two
    exits; counting the reports counts the runs. *)
Definition is_shutdown_report (ev : Event) : bool :=
  match ev with
  | EvLog INFO MsgShutdownComplete => true
  | EvLog ERROR (MsgShutdownError _) => true
  | _ => false
  end.

Fixpoint shutdown_runs (tr : list Event) : nat :=
  match tr with
  | [] => O
  | ev :: tr' =>
      ((if is_shutdown_report ev then 1 else 0) + shutdown_runs tr')%nat
  end.

(** How a tick that reads with answer number [r] and writes with answer
    number [p] fails on its input or output, if it does. *)
Definition tick_error (hw : Hardware) (r p : nat) : option Exn :=
  match sensor hw r with
  | FileUnreadable => Some IOError
  | FileGarbage => Some ValueError
  | FileText _ => if tx_pwm_ok hw p then None else Some LgpioError
  end.

(** Calls of [lgpio.tx_pwm] made by a tick that fails with [e]. *)
Definition writes_of_failed_tick (e : Exn) : nat :=
  match e with
  | LgpioError => 1
  | _ => 0
  end.

(** [w'] is [w] after some ticks and sleeps of the loop: the counters have
    moved by [k], nothing else that matters has. *)
Record advanced (k : nat) (w w' : World) : Prop := mkAdvanced {
  adv_fan : fan_control w' = fan_control w;
  adv_reads : reads w' = (reads w + k)%nat;
  adv_pwm : pwm_calls w' = (pwm_calls w + k)%nat;
  adv_sleeps : sleeps w' = (sleeps w + k)%nat;
  adv_shutdown : shutdown_runs (trace w') = shutdown_runs (trace w)
}.

(** ** The ramp in binary64

    Lines 97-99 once more, in the arithmetic the interpreter uses, to
    evaluate the ramp at given readings without the idealisation. *)

(** [float(z)]; exact for integers below 2^53 in absolute value. *)
Fixpoint float_of_positive (p : positive) : float :=
  match p with
  | xH => 1%float
  | xO p' => (2 * float_of_positive p')%float
  | xI p' => (2 * float_of_positive p' + 1)%float
  end.

Definition float_of_int (z : Z) : float :=
  match z with
  | Z0 => 0%float
  | Zpos p => float_of_positive p
  | Zneg p => (- float_of_positive p)%float
  end.

(** [float(text) / 1000] for a thermal file holding the integer [milli]. *)
Definition temperature_binary64 (milli : Z) : float :=
  (float_of_int milli / 1000)%float.

Definition ramp_binary64 (args : Args) (curr_temp : float) : float :=
  let adaptive_percentage :=
    ((curr_temp - float_of_int (min_temp args))
     / float_of_int (max_temp args - min_temp args))%float in
  let fan_activation_range := fan_high args - fan_low args in
  (float_of_int (fan_low args)
   + float_of_int fan_activation_range * adaptive_percentage)%float.

(** ** Concrete configurations, machines and worlds of the examples *)

(** A world that holds nothing but the latch, and a machine that answers
    every read and every write in the same way. *)
Definition bare_world (latch : bool) : World :=
  {| REMAIN_ACTIVATED := latch; fan_control := None;
     reads := 0; pwm_calls := 0; sleeps := 0; trace := [] |}.

Definition fixed_hw (s : SensorRead) (pwm : bool) : Hardware :=
  {| sensor := fun _ => s; tx_pwm_ok := fun _ => pwm;
     sleep_interrupted := fun _ => false;
     chip_open := None; claim_ok := false; close_ok := false |}.

(** The defaults with [--fan-low 30]. *)
Definition args_fan_low_30 : Args :=
  arguments_parsing
    (mkCommandLine None None None None (Some 30) None None None None false).

(** The defaults with [--fan-high 80]. *)
Definition args_fan_high_80 : Args :=
  arguments_parsing
    (mkCommandLine None None None None None (Some 80) None None None false).

(** A sensor stuck at 52 degrees, between the cooling threshold (50) and
    the activation threshold (55). *)
Definition hw_52 : Hardware := quiet_hw (fun _ => 52%Q).

(** A sensor stuck at 55 degrees. *)
Definition hw_55 : Hardware := quiet_hw (fun _ => 55%Q).

(** A sensor stuck at 65 degrees, the middle of the default ramp. *)
Definition hw_65 : Hardware := quiet_hw (fun _ => 65%Q).

(** A world in the middle of a run: three ticks done, latch engaged. *)
Definition later_world : World :=
  {| REMAIN_ACTIVATED := true; fan_control := Some 7;
     reads := 3; pwm_calls := 4; sleeps := 3;
     trace := [EvSleep 10] |}.

(** A sensor that is read twice and is unreadable from then on. *)
Definition hw_sensor_dies : Hardware :=
  {| sensor := fun n => if (n <? 2)%nat then FileText (60 * 1000)
                        else FileUnreadable;
     tx_pwm_ok := fun _ => true;
     sleep_interrupted := fun _ => false;
     chip_open := Some 7; claim_ok := true; close_ok := true |}.

(** The first sleep is interrupted by Ctrl-C; the sensor stays at 52. *)
Definition hw_ctrl_c : Hardware :=
  {| sensor := fun _ => FileText (52 * 1000);
     tx_pwm_ok := fun _ => true;
     sleep_interrupted := fun n => Nat.eqb n 0;
     chip_open := Some 7; claim_ok := true; close_ok := true |}.

(** A configuration file that sets [max_temp] to 55, the default of
    [min_temp]. *)
Definition flat_files : gmap string Ini :=
  {[ DEFAULT_CONFIG_FILE :=
       {[ "FanControl"%string := {[ "max_temp"%string := IntText 55 ]} ]} ]}.

Definition args_flat : Args :=
  {| config := DEFAULT_CONFIG_FILE;
     min_temp := 55; min_cool_temp := 50; max_temp := 55;
     fan_low := 50; fan_high := 100;
     wait_time := 10; pwm_gpio := 14; pwm_freq := 10000;
     verbose := false |}.

(** A [FanControl] section that gives the five thresholds and bounds. *)
Definition thresholds_ini (mn mc mx lo hi : Z) : Ini :=
  {[ "FanControl"%string :=
       {[ "min_temp"%string := IntText mn;
          "min_cool_temp"%string := IntText mc;
          "max_temp"%string := IntText mx;
          "fan_low"%string := IntText lo;
          "fan_high"%string := IntText hi ]} ]}.

(** ** Definitions for the further properties *)

(** The events of one run of [shutdown], given how its PWM write and the
    closing of the chip go. *)
Definition shutdown_events (args : Args) (fan : Z) (pwm close : bool)
    : list Event :=
  if pwm
  then
    [EvTxPwm fan (pwm_gpio args) (pwm_freq args) (inject_Z DEFAULT_FAN_LOW);
     EvLog INFO (MsgFanSpeed (py_int (inject_Z DEFAULT_FAN_LOW))
                   (inject_Z (min_temp args)))]
    ++ (if close
        then [EvClose fan; EvLog INFO MsgShutdownComplete]
        else [EvLog ERROR (MsgShutdownError LgpioError)])
  else [EvLog ERROR MsgSetFailed; EvLog ERROR (MsgShutdownError LgpioError)].

(** The chips that the script closed, oldest first. *)
Fixpoint closes (tr : list Event) : list Z :=
  match tr with
  | [] => []
  | EvClose fan :: tr' => fan :: closes tr'
  | _ :: tr' => closes tr'
  end.

(** The text of option [name] in the [FanControl] section, if any. *)
Definition ini_option (cfg : Ini) (name : string) : option IniValue :=
  match cfg !! "FanControl"%string with
  | Some opts => opts !! name
  | None => None
  end.

(** What [getint] makes of an option: the integer in the file, or the
    fallback when the option is missing. *)
Definition ini_int (cfg : Ini) (name : string) (fallback : Z) : Z :=
  match ini_option cfg name with
  | Some (IntText z) => z
  | _ => fallback
  end.

(** The exception that [getint] raises on an option, if it does. *)
Definition text_error (v : option IniValue) : option Exn :=
  match v with
  | Some (OtherText _) => Some ValueError
  | Some (BadInterpolation _) => Some InterpolationError
  | _ => None
  end.

(** The exception of the first of [names] on which [getint] raises. *)
Fixpoint first_error (cfg : Ini) (names : list string) : option Exn :=
  match names with
  | [] => None
  | name :: names' =>
      match text_error (ini_option cfg name) with
      | Some e => Some e
      | None => first_error cfg names'
      end
  end.

(** The eight options that [config_parsing] reads, in its order. *)
Definition int_options : list string :=
  ["min_temp"; "min_cool_temp"; "max_temp"; "fan_low"; "fan_high";
   "wait_time"; "pwm_gpio"; "pwm_freq"]%string.

(** A machine given by its answers. *)
Definition hw_no_chip : Hardware :=
  {| sensor := fun _ => FileText (60 * 1000);
     tx_pwm_ok := fun _ => true;
     sleep_interrupted := fun _ => false;
     chip_open := None; claim_ok := true; close_ok := true |}.

Definition hw_claim_fails : Hardware :=
  {| sensor := fun _ => FileText (60 * 1000);
     tx_pwm_ok := fun _ => true;
     sleep_interrupted := fun _ => false;
     chip_open := Some 7; claim_ok := false; close_ok := true |}.

(** Ctrl-C during the third sleep; the sensor stays at 60. *)
Definition hw_ctrl_c_third : Hardware :=
  {| sensor := fun _ => FileText (60 * 1000);
     tx_pwm_ok := fun _ => true;
     sleep_interrupted := fun n => Nat.eqb n 2;
     chip_open := Some 7; claim_ok := true; close_ok := true |}.

(** The readings of a cooling run: 60, 52, 51, then 50 degrees. *)
Definition hw_cooling : Hardware :=
  quiet_hw (fun n => match n with
                     | O => 60%Q
                     | 1%nat => 52%Q
                     | 2%nat => 51%Q
                     | _ => 50%Q
                     end).

(** The readings of a warm-up below the activation threshold: 40, 50,
    54, then 54.9 degrees. *)
Definition hw_warming : Hardware :=
  quiet_hw (fun n => match n with
                     | O => 40%Q
                     | 1%nat => 50%Q
                     | 2%nat => 54%Q
                     | _ => (549 # 10)%Q
                     end).

(** The integer setting of [args] that the option [name] sets. *)
Definition int_field (name : string) (args : Args) : Z :=
  if String.eqb name "min_temp" then min_temp args
  else if String.eqb name "min_cool_temp" then min_cool_temp args
  else if String.eqb name "max_temp" then max_temp args
  else if String.eqb name "fan_low" then fan_low args
  else if String.eqb name "fan_high" then fan_high args
  else if String.eqb name "wait_time" then wait_time args
  else if String.eqb name "pwm_gpio" then pwm_gpio args
  else if String.eqb name "pwm_freq" then pwm_freq args
  else 0.

(** [args] with every option that the file gives as an integer replaced
    by the value in the file. *)
Definition config_applied (cfg : Ini) (args : Args) : Args :=
  {| config := config args;
     min_temp := ini_int cfg "min_temp" (min_temp args);
     min_cool_temp := ini_int cfg "min_cool_temp" (min_cool_temp args);
     max_temp := ini_int cfg "max_temp" (max_temp args);
     fan_low := ini_int cfg "fan_low" (fan_low args);
     fan_high := ini_int cfg "fan_high" (fan_high args);
     wait_time := ini_int cfg "wait_time" (wait_time args);
     pwm_gpio := ini_int cfg "pwm_gpio" (pwm_gpio args);
     pwm_freq := ini_int cfg "pwm_freq" (pwm_freq args);
     verbose := verbose args |}.

(** The exception with which [config_parsing] stops on the file, if it
    does: that of the first of the eight options, in the order in which
    they are read, whose text cannot be turned into an integer. *)
Definition config_error (cfg : Ini) : option Exn :=
  first_error cfg int_options.

(** The command line [--min-temp 60 --fan-low 40]. *)
Definition cli_60_40 : CommandLine :=
  mkCommandLine None (Some 60) None None (Some 40) None None None None false.

(** A configuration file that sets [min_temp] to 45 and nothing else. *)
Definition files_min_temp_45 : gmap string Ini :=
  {[ DEFAULT_CONFIG_FILE :=
       {[ "FanControl"%string := {[ "min_temp"%string := IntText 45 ]} ]} ]}.

(** A configuration file whose [max_temp] is [80%]: a lone percent sign,
    which the interpolation rejects. *)
Definition files_percent_max_temp : gmap string Ini :=
  {[ DEFAULT_CONFIG_FILE :=
       {[ "FanControl"%string :=
            {[ "min_temp"%string := IntText 45;
               "max_temp"%string := BadInterpolation "80%" ]} ]} ]}.

(** A sensor at 40 degrees and a PWM output that fails. *)
Definition hw_40_pwm_dead : Hardware :=
  {| sensor := fun _ => FileText (40 * 1000);
     tx_pwm_ok := fun _ => false;
     sleep_interrupted := fun _ => false;
     chip_open := Some 7; claim_ok := true; close_ok := true |}.

(** A configuration file whose [max_temp] is not a number. *)
Definition files_bad_max_temp : gmap string Ini :=
  {[ DEFAULT_CONFIG_FILE :=
       {[ "FanControl"%string :=
            {[ "min_temp"%string := IntText 45;
               "max_temp"%string := OtherText "hot" ]} ]} ]}.

(** * Properties *)

Lemma Qltb_lt (x y : Q) : Qltb x y = true <-> (x < y)%Q.
Proof.
  unfold Qltb. rewrite negb_true_iff. split.
  - intros H. apply Qnot_le_lt. intros Hle.
    apply Qle_bool_iff in Hle. congruence.
  - intros H. destruct (Qle_bool y x) eqn:E; [|reflexivity].
    apply Qle_bool_iff in E. exfalso. apply (Qlt_not_le _ _ H E).
Qed.

Lemma Qltb_ge (x y : Q) : Qltb x y = false <-> (y <= x)%Q.
Proof.
  unfold Qltb. rewrite negb_false_iff. apply Qle_bool_iff.
Qed.

Lemma duties_app (tr1 tr2 : list Event) :
  duties (tr1 ++ tr2) = duties tr1 ++ duties tr2.
Proof.
  induction tr1 as [|ev tr1 IH]; simpl; [reflexivity|].
  destruct ev; simpl; rewrite IH; reflexivity.
Qed.

Section Ticks.

Variable hw : Hardware.
Variable args : Args.

Lemma set_fan_speed_ok (fan : Z) (d t : Q) (w : World) :
  tx_pwm_ok hw (pwm_calls w) = true ->
  set_fan_speed hw args fan d t w =
  (Ok tt,
   push (EvLog INFO (MsgFanSpeed (py_int d) t))
     (push (EvTxPwm fan (pwm_gpio args) (pwm_freq args) d)
        (tick_pwm_calls w))).
Proof.
  intros Hok.
  unfold set_fan_speed, try_except, lgpio_tx_pwm, logging, emit.
  unfold mbind, M_bind. rewrite Hok. reflexivity.
Qed.

Lemma set_fan_speed_failed (fan : Z) (d t : Q) (w : World) :
  tx_pwm_ok hw (pwm_calls w) = false ->
  set_fan_speed hw args fan d t w =
  (Raise LgpioError, push (EvLog ERROR MsgSetFailed) (tick_pwm_calls w)).
Proof.
  intros Hko.
  unfold set_fan_speed, try_except, lgpio_tx_pwm, logging, emit, raise.
  unfold mbind, M_bind. rewrite Hko. reflexivity.
Qed.

Lemma get_cpu_temperature_ok (milli : Q) (w : World) :
  sensor hw (reads w) = FileText milli ->
  get_cpu_temperature hw w = (Ok (celsius milli), tick_reads w).
Proof.
  intros Hs.
  unfold get_cpu_temperature, try_except, read_thermal_file.
  unfold mbind, M_bind. rewrite Hs. reflexivity.
Qed.

Lemma get_cpu_temperature_unreadable (w : World) :
  sensor hw (reads w) = FileUnreadable ->
  get_cpu_temperature hw w =
  (Raise IOError, push (EvLog ERROR MsgReadFailed) (tick_reads w)).
Proof.
  intros Hs.
  unfold get_cpu_temperature, try_except, read_thermal_file.
  unfold mbind, M_bind. rewrite Hs. reflexivity.
Qed.

Lemma get_cpu_temperature_garbage (w : World) :
  sensor hw (reads w) = FileGarbage ->
  get_cpu_temperature hw w = (Raise ValueError, tick_reads w).
Proof.
  intros Hs.
  unfold get_cpu_temperature, try_except, read_thermal_file.
  unfold mbind, M_bind. rewrite Hs. reflexivity.
Qed.

(** One tick with a readable sensor and a working PWM output: the effects
    resolved, the branches of the source left as they are. *)
Lemma handle_fan_speed_io_ok (fan : Z) (milli : Q) (w : World) :
  sensor hw (reads w) = FileText milli ->
  tx_pwm_ok hw (pwm_calls w) = true ->
  handle_fan_speed hw args fan w =
  let t := celsius milli in
  if negb (REMAIN_ACTIVATED w) && Qltb t (inject_Z (min_temp args))
  then (Ok tt, ticked args w (REMAIN_ACTIVATED w) fan (inject_Z DEFAULT_FAN_OFF) t)
  else if Qltb t (inject_Z (min_cool_temp args))
  then (Ok tt, ticked args w false fan (inject_Z DEFAULT_FAN_OFF) t)
  else if Qltb t (inject_Z (min_temp args))
  then (Ok tt, ticked args w true fan (inject_Z DEFAULT_FAN_LOW) t)
  else if Qltb (inject_Z (max_temp args)) t
  then (Ok tt, ticked args w true fan (inject_Z DEFAULT_FAN_MAX) t)
  else if max_temp args - min_temp args =? 0
  then (Raise ZeroDivisionError, with_latch true (tick_reads w))
  else (Ok tt,
        ticked args w true fan
          (inject_Z (fan_low args)
           + inject_Z (fan_high args - fan_low args)
             * ((t - inject_Z (min_temp args))
                / inject_Z (max_temp args - min_temp args)))%Q t).
Proof.
  intros Hs Hok. cbv zeta.
  unfold handle_fan_speed.
  unfold mbind at 1. unfold M_bind at 1.
  rewrite (get_cpu_temperature_ok milli w Hs).
  unfold mbind at 1. unfold M_bind at 1.
  unfold get_REMAIN_ACTIVATED. cbn [tick_reads REMAIN_ACTIVATED].
  destruct (negb (REMAIN_ACTIVATED w) && Qltb _ _).
  { rewrite set_fan_speed_ok by exact Hok.
    unfold ticked, push, tick_pwm_calls, tick_reads; cbn.
    rewrite <- app_assoc. reflexivity. }
  unfold mbind at 1. unfold M_bind at 1. unfold set_REMAIN_ACTIVATED.
  destruct (Qltb _ (inject_Z (min_cool_temp args))).
  { unfold mbind, M_bind. rewrite set_fan_speed_ok by exact Hok.
    unfold ticked, push, tick_pwm_calls, tick_reads, with_latch; cbn.
    rewrite <- app_assoc. reflexivity. }
  destruct (Qltb _ (inject_Z (min_temp args))).
  { rewrite set_fan_speed_ok by exact Hok.
    unfold ticked, push, tick_pwm_calls, tick_reads, with_latch; cbn.
    rewrite <- app_assoc. reflexivity. }
  destruct (Qltb (inject_Z (max_temp args)) _).
  { rewrite set_fan_speed_ok by exact Hok.
    unfold ticked, push, tick_pwm_calls, tick_reads, with_latch; cbn.
    rewrite <- app_assoc. reflexivity. }
  unfold py_truediv.
  destruct (max_temp args - min_temp args =? 0).
  { reflexivity. }
  unfold mbind, M_bind, mret, M_ret.
  rewrite set_fan_speed_ok by exact Hok.
  unfold ticked, push, tick_pwm_calls, tick_reads, with_latch; cbn.
  rewrite <- app_assoc. reflexivity.
Qed.

(** One tick with a readable sensor and a failing PWM output. *)
Lemma handle_fan_speed_pwm_failed (fan : Z) (milli : Q) (w : World) :
  sensor hw (reads w) = FileText milli ->
  tx_pwm_ok hw (pwm_calls w) = false ->
  handle_fan_speed hw args fan w =
  let t := celsius milli in
  if negb (REMAIN_ACTIVATED w) && Qltb t (inject_Z (min_temp args))
  then (Raise LgpioError, write_failed w (REMAIN_ACTIVATED w))
  else if Qltb t (inject_Z (min_cool_temp args))
  then (Raise LgpioError, write_failed w true)
  else if Qltb t (inject_Z (min_temp args))
  then (Raise LgpioError, write_failed w true)
  else if Qltb (inject_Z (max_temp args)) t
  then (Raise LgpioError, write_failed w true)
  else if max_temp args - min_temp args =? 0
  then (Raise ZeroDivisionError, with_latch true (tick_reads w))
  else (Raise LgpioError, write_failed w true).
Proof.
  intros Hs Hko. cbv zeta.
  unfold handle_fan_speed.
  unfold mbind at 1. unfold M_bind at 1.
  rewrite (get_cpu_temperature_ok milli w Hs).
  unfold mbind at 1. unfold M_bind at 1.
  unfold get_REMAIN_ACTIVATED. cbn [tick_reads REMAIN_ACTIVATED].
  destruct (negb (REMAIN_ACTIVATED w) && Qltb _ _).
  { rewrite set_fan_speed_failed by exact Hko. reflexivity. }
  unfold mbind at 1. unfold M_bind at 1. unfold set_REMAIN_ACTIVATED.
  destruct (Qltb _ (inject_Z (min_cool_temp args))).
  { unfold mbind, M_bind. rewrite set_fan_speed_failed by exact Hko.
    reflexivity. }
  destruct (Qltb _ (inject_Z (min_temp args))).
  { rewrite set_fan_speed_failed by exact Hko. reflexivity. }
  destruct (Qltb (inject_Z (max_temp args)) _).
  { rewrite set_fan_speed_failed by exact Hko. reflexivity. }
  unfold py_truediv.
  destruct (max_temp args - min_temp args =? 0).
  { reflexivity. }
  unfold mbind, M_bind, mret, M_ret.
  rewrite set_fan_speed_failed by exact Hko. reflexivity.
Qed.

(** One tick with an unreadable sensor: nothing is written. *)
Lemma handle_fan_speed_unreadable (fan : Z) (w : World) :
  sensor hw (reads w) = FileUnreadable ->
  handle_fan_speed hw args fan w =
  (Raise IOError, push (EvLog ERROR MsgReadFailed) (tick_reads w)).
Proof.
  intros Hs. unfold handle_fan_speed, mbind, M_bind.
  rewrite (get_cpu_temperature_unreadable w Hs). reflexivity.
Qed.

Lemma handle_fan_speed_garbage (fan : Z) (w : World) :
  sensor hw (reads w) = FileGarbage ->
  handle_fan_speed hw args fan w = (Raise ValueError, tick_reads w).
Proof.
  intros Hs. unfold handle_fan_speed, mbind, M_bind.
  rewrite (get_cpu_temperature_garbage w Hs). reflexivity.
Qed.

End Ticks.

(** ** What a tick emits *)

Lemma ticked_emits hw args fan w latch d' d t :
  handle_fan_speed hw args fan w = (Ok tt, ticked args w latch fan d' t) ->
  (d' == d)%Q ->
  tick_emits hw args fan w d latch.
Proof.
  intros Hrun Hd. exists (ticked args w latch fan d' t), d'.
  split; [exact Hrun|]. split; [|split; [exact Hd|reflexivity]].
  cbn [ticked trace]. rewrite duties_app. reflexivity.
Qed.

(** Case analysis on the comparisons of the source, as facts on [Q]. *)
Ltac by_band :=
  cbn [negb andb];
  repeat
    (match goal with
     | |- context [Qltb ?x ?y] =>
         let E := fresh "Hcmp" in
         destruct (Qltb x y) eqn:E;
         [apply Qltb_lt in E | apply Qltb_ge in E]
     | |- context [?a =? ?b] =>
         let E := fresh "Hden" in
         destruct (Z.eqb_spec a b) as [E|E]
     end;
     cbn [negb andb]).

Section Bands.

Variable hw : Hardware.
Variable args : Args.
Variable fan : Z.
Variable w : World.
Variable milli : Q.

Hypothesis sensor_ok : sensor hw (reads w) = FileText milli.
Hypothesis pwm_ok : tx_pwm_ok hw (pwm_calls w) = true.

(* Idle hold: the latch is off and the temperature is below [min_temp]. *)
Lemma tick_idle_hold :
  REMAIN_ACTIVATED w = false ->
  (celsius milli < inject_Z (min_temp args))%Q ->
  tick_emits hw args fan w (inject_Z DEFAULT_FAN_OFF) false.
Proof.
  intros Hl Ht.
  pose proof (handle_fan_speed_io_ok hw args fan milli w sensor_ok pwm_ok)
    as Hrun.
  cbv zeta in Hrun. rewrite Hl in Hrun. revert Hrun. by_band; intros Hrun;
    try lra;
    (eapply ticked_emits; [exact Hrun|reflexivity]).
Qed.

(* Cooldown: below [min_cool_temp] the fan is switched off and the latch
   is released, whatever the latch was. *)
Lemma tick_cooldown :
  (celsius milli < inject_Z (min_cool_temp args))%Q ->
  min_cool_temp args <= min_temp args ->
  tick_emits hw args fan w (inject_Z DEFAULT_FAN_OFF) false.
Proof.
  intros Ht Hord. rewrite Zle_Qle in Hord.
  pose proof (handle_fan_speed_io_ok hw args fan milli w sensor_ok pwm_ok)
    as Hrun.
  cbv zeta in Hrun. revert Hrun.
  destruct (REMAIN_ACTIVATED w) eqn:Hl; by_band; intros Hrun; try lra;
    (eapply ticked_emits; [exact Hrun|reflexivity]).
Qed.

(* Low-speed band: the duty is the constant [DEFAULT_FAN_LOW]. *)
Lemma tick_low_band :
  REMAIN_ACTIVATED w = true ->
  (inject_Z (min_cool_temp args) <= celsius milli)%Q ->
  (celsius milli < inject_Z (min_temp args))%Q ->
  tick_emits hw args fan w (inject_Z DEFAULT_FAN_LOW) true.
Proof.
  intros Hl Hlo Hhi.
  pose proof (handle_fan_speed_io_ok hw args fan milli w sensor_ok pwm_ok)
    as Hrun.
  cbv zeta in Hrun. rewrite Hl in Hrun. revert Hrun. by_band; intros Hrun;
    try lra;
    (eapply ticked_emits; [exact Hrun|reflexivity]).
Qed.

(* Saturation: above [max_temp] the duty is the constant
   [DEFAULT_FAN_MAX]. *)
Lemma tick_saturation :
  (inject_Z (min_cool_temp args) <= celsius milli)%Q ->
  (inject_Z (min_temp args) <= celsius milli)%Q ->
  (inject_Z (max_temp args) < celsius milli)%Q ->
  tick_emits hw args fan w (inject_Z DEFAULT_FAN_MAX) true.
Proof.
  intros Hcool Hmin Hmax.
  pose proof (handle_fan_speed_io_ok hw args fan milli w sensor_ok pwm_ok)
    as Hrun.
  cbv zeta in Hrun. revert Hrun.
  destruct (REMAIN_ACTIVATED w) eqn:Hl; by_band; intros Hrun; try lra;
    (eapply ticked_emits; [exact Hrun|reflexivity]).
Qed.

(* Linear ramp. *)
Lemma tick_ramp :
  max_temp args <> min_temp args ->
  (inject_Z (min_cool_temp args) <= celsius milli)%Q ->
  (inject_Z (min_temp args) <= celsius milli)%Q ->
  (celsius milli <= inject_Z (max_temp args))%Q ->
  tick_emits hw args fan w
    (inject_Z (fan_low args)
     + inject_Z (fan_high args - fan_low args)
       * ((celsius milli - inject_Z (min_temp args))
          / inject_Z (max_temp args - min_temp args)))%Q
    true.
Proof.
  intros Hne Hcool Hmin Hmax.
  pose proof (handle_fan_speed_io_ok hw args fan milli w sensor_ok pwm_ok)
    as Hrun.
  cbv zeta in Hrun. revert Hrun.
  destruct (REMAIN_ACTIVATED w) eqn:Hl; by_band; intros Hrun;
    try lra; try lia;
    (eapply ticked_emits; [exact Hrun|reflexivity]).
Qed.

End Bands.

(** ** The ramp formula *)

Lemma ramp_formula_code (args : Args) (t : Q) :
  max_temp args <> min_temp args ->
  (inject_Z (fan_low args)
   + inject_Z (fan_high args - fan_low args)
     * ((t - inject_Z (min_temp args))
        / inject_Z (max_temp args - min_temp args))
   == ramp_formula args t)%Q.
Proof.
  intros Hne. unfold ramp_formula.
  unfold Z.sub. rewrite !inject_Z_plus, !inject_Z_opp.
  field. intros Heq.
  apply Hne. apply inject_Z_injective. lra.
Qed.

Lemma tick_emits_Qeq hw args fan w d1 d2 latch :
  (d1 == d2)%Q ->
  tick_emits hw args fan w d1 latch ->
  tick_emits hw args fan w d2 latch.
Proof.
  intros Heq (w' & d' & Hrun & Hd & Hd' & Hl).
  exists w', d'. repeat split; try assumption.
  rewrite Hd'. exact Heq.
Qed.

Lemma valid_thresholds_Q (args : Args) :
  valid_thresholds args ->
  (inject_Z (min_cool_temp args) < inject_Z (min_temp args))%Q /\
  (inject_Z (min_temp args) < inject_Z (max_temp args))%Q.
Proof.
  intros [H1 H2]. rewrite <- !Zlt_Qlt. split; assumption.
Qed.

Lemma ramp_formula_bounds (args : Args) (t : Q) :
  min_temp args < max_temp args ->
  fan_low args <= fan_high args ->
  (inject_Z (min_temp args) <= t)%Q ->
  (t <= inject_Z (max_temp args))%Q ->
  (inject_Z (fan_low args) <= ramp_formula args t)%Q /\
  (ramp_formula args t <= inject_Z (fan_high args))%Q.
Proof.
  intros Hord Hduty Hlo Hhi.
  rewrite Zlt_Qlt in Hord. rewrite Zle_Qle in Hduty.
  unfold ramp_formula.
  set (lo := inject_Z (fan_low args)) in *.
  set (hi := inject_Z (fan_high args)) in *.
  set (a := inject_Z (min_temp args)) in *.
  set (b := inject_Z (max_temp args)) in *.
  assert (Hr0 : (0 <= (hi - lo) * (t - a) / (b - a))%Q).
  { apply Qle_shift_div_l; [lra|]. nra. }
  assert (Hr1 : ((hi - lo) * (t - a) / (b - a) <= hi - lo)%Q).
  { apply Qle_shift_div_r; [lra|]. nra. }
  split; lra.
Qed.

(** Validity of a concrete configuration, by evaluation. *)
Ltac check_config :=
  unfold valid_config, valid_thresholds, valid_duty_bounds;
  vm_compute; repeat split; (reflexivity || discriminate).

(** ** The claims about one tick *)

(** C1 (evaluation at the failing input).  With [--fan-low 30], the latch
    engaged and the sensor at 52 degrees (low-speed band of a valid
    configuration), the tick returns, keeps the latch engaged and emits the
    constant [DEFAULT_FAN_LOW] = 50, which is not the configured
    [fan_low] = 30. *)
Theorem low_band_ignores_configured_fan_low :
  valid_config args_fan_low_30 /\
  fan_low args_fan_low_30 = 30 /\
  exists w',
    handle_fan_speed hw_52 args_fan_low_30 7 engaged_world = (Ok tt, w') /\
    duties (trace w') = [inject_Z DEFAULT_FAN_LOW] /\
    REMAIN_ACTIVATED w' = true /\
    ~ (inject_Z DEFAULT_FAN_LOW == inject_Z (fan_low args_fan_low_30))%Q.
Proof.
  split.
  { check_config. }
  split; [reflexivity|].
  eexists. split; [vm_compute; reflexivity|].
  split; [reflexivity|]. split; [reflexivity|].
  intros H. vm_compute in H. discriminate H.
Qed.

(** The latch after a tick whose read and write succeed. *)
Lemma latch_update hw args fan w milli :
  valid_config args ->
  sensor hw (reads w) = FileText milli ->
  tx_pwm_ok hw (pwm_calls w) = true ->
  exists w',
    handle_fan_speed hw args fan w = (Ok tt, w') /\
    (REMAIN_ACTIVATED w' = true <->
     (REMAIN_ACTIVATED w = true \/
      (inject_Z (min_temp args) <= celsius milli)%Q) /\
     (inject_Z (min_cool_temp args) <= celsius milli)%Q) /\
    (REMAIN_ACTIVATED w = false ->
     (REMAIN_ACTIVATED w' = true <->
      (inject_Z (min_temp args) <= celsius milli)%Q)) /\
    (REMAIN_ACTIVATED w = true ->
     (REMAIN_ACTIVATED w' = false <->
      (celsius milli < inject_Z (min_cool_temp args))%Q)).
Proof.
  intros [Hth _] Hs Hok.
  destruct (valid_thresholds_Q args Hth) as [Hq1 Hq2].
  destruct Hth as [Hz1 Hz2].
  rewrite (handle_fan_speed_io_ok hw args fan milli w Hs Hok). cbv zeta.
  destruct (REMAIN_ACTIVATED w) eqn:Hl; by_band; try lia;
    (eexists; split; [reflexivity|]); cbn [ticked REMAIN_ACTIVATED];
    repeat split; intros; try discriminate; try lra; try tauto;
    try (exfalso; lra);
    try match goal with
      | H : _ /\ _ |- _ => destruct H as [[?|?] ?]; try discriminate; lra
      end.
Qed.

(** The latch after a tick whose write fails: it is as the branch taken
    had set it before the write, and line 85 is not reached. *)
Lemma latch_when_write_fails hw args fan w milli :
  valid_config args ->
  sensor hw (reads w) = FileText milli ->
  tx_pwm_ok hw (pwm_calls w) = false ->
  exists w',
    handle_fan_speed hw args fan w = (Raise LgpioError, w') /\
    (REMAIN_ACTIVATED w' = true <->
     REMAIN_ACTIVATED w = true \/
     (inject_Z (min_temp args) <= celsius milli)%Q).
Proof.
  intros [Hth _] Hs Hko.
  destruct (valid_thresholds_Q args Hth) as [Hq1 Hq2].
  destruct Hth as [Hz1 Hz2].
  rewrite (handle_fan_speed_pwm_failed hw args fan milli w Hs Hko). cbv zeta.
  destruct (REMAIN_ACTIVATED w) eqn:Hl; by_band; try lia;
    (eexists; split; [reflexivity|]);
    cbn [write_failed REMAIN_ACTIVATED];
    split; intros H; try reflexivity; try discriminate;
    try (left; reflexivity); try (right; assumption);
    try (destruct H as [H|H]; [discriminate|exfalso; lra]).
Qed.

(** C3 (counterexample).  Default configuration, latch on, sensor at 40
    degrees (below [min_cool_temp] = 50), PWM write failing: the tick
    raises [lgpio.error] and leaves the latch on, where the claim has it
    off for a temperature below [min_cool_temp]. *)
Lemma latch_stays_on_when_cooldown_write_fails :
  valid_config default_args /\
  REMAIN_ACTIVATED engaged_world = true /\
  sensor hw_40_pwm_dead (reads engaged_world) = FileText (40 * 1000) /\
  ~ (inject_Z (min_cool_temp default_args) <= celsius (40 * 1000))%Q /\
  fst (handle_fan_speed hw_40_pwm_dead default_args 7 engaged_world) =
  Raise LgpioError /\
  REMAIN_ACTIVATED
    (snd (handle_fan_speed hw_40_pwm_dead default_args 7 engaged_world)) =
  true.
Proof.
  split; [check_config|].
  split; [reflexivity|]. split; [reflexivity|].
  split; [intros H; apply H; reflexivity|].
  split; reflexivity.
Qed.

(** C3 (amended).  For a valid configuration and a tick that reads a
    temperature: if the PWM write succeeds, the tick returns with the
    latch on exactly when (the latch was on or the temperature is at least
    [min_temp]) and the temperature is at least [min_cool_temp], so from
    idle it engages exactly at [min_temp] and above and from engaged it
    releases exactly below [min_cool_temp]; if the PWM write fails, the
    tick raises [lgpio.error] with the latch on exactly when the latch was
    on or the temperature is at least [min_temp], not released below
    [min_cool_temp]. *)
Theorem latch_after_tick hw args fan w milli :
  valid_config args ->
  sensor hw (reads w) = FileText milli ->
  (tx_pwm_ok hw (pwm_calls w) = true ->
   exists w',
     handle_fan_speed hw args fan w = (Ok tt, w') /\
     (REMAIN_ACTIVATED w' = true <->
      (REMAIN_ACTIVATED w = true \/
       (inject_Z (min_temp args) <= celsius milli)%Q) /\
      (inject_Z (min_cool_temp args) <= celsius milli)%Q) /\
     (REMAIN_ACTIVATED w = false ->
      (REMAIN_ACTIVATED w' = true <->
       (inject_Z (min_temp args) <= celsius milli)%Q)) /\
     (REMAIN_ACTIVATED w = true ->
      (REMAIN_ACTIVATED w' = false <->
       (celsius milli < inject_Z (min_cool_temp args))%Q))) /\
  (tx_pwm_ok hw (pwm_calls w) = false ->
   exists w',
     handle_fan_speed hw args fan w = (Raise LgpioError, w') /\
     (REMAIN_ACTIVATED w' = true <->
      REMAIN_ACTIVATED w = true \/
      (inject_Z (min_temp args) <= celsius milli)%Q)).
Proof.
  intros Hvalid Hs. split; intros Hpwm.
  - exact (latch_update hw args fan w milli Hvalid Hs Hpwm).
  - exact (latch_when_write_fails hw args fan w milli Hvalid Hs Hpwm).
Qed.

Lemma latch_after_tick_witness :
  (exists w',
     handle_fan_speed hw_52 default_args 7 engaged_world = (Ok tt, w') /\
     REMAIN_ACTIVATED w' = true) /\
  (exists w',
     handle_fan_speed hw_40_pwm_dead default_args 7 engaged_world =
     (Raise LgpioError, w') /\
     REMAIN_ACTIVATED w' = true).
Proof.
  split.
  - destruct (proj1 (latch_after_tick hw_52 default_args 7 engaged_world
                       (52 * 1000)%Q ltac:(check_config) eq_refl) eq_refl)
      as (w' & Hrun & Hiff & _).
    exists w'. split; [exact Hrun|].
    apply Hiff. split; [left; reflexivity|].
    vm_compute. discriminate.
  - destruct (proj2 (latch_after_tick hw_40_pwm_dead default_args 7
                       engaged_world (40 * 1000)%Q ltac:(check_config)
                       eq_refl) eq_refl)
      as (w' & Hrun & Hiff).
    exists w'. split; [exact Hrun|].
    apply Hiff. left. reflexivity.
Defined.

(** C4.  For a valid configuration, every temperature and either latch
    state, a tick whose read and write succeed emits one duty cycle, and it
    lies in [0, 100]. *)
Theorem duty_in_range hw args fan w milli :
  valid_config args ->
  sensor hw (reads w) = FileText milli ->
  tx_pwm_ok hw (pwm_calls w) = true ->
  exists d latch,
    tick_emits hw args fan w d latch /\ (0 <= d)%Q /\ (d <= 100)%Q.
Proof.
  intros [Hth (Hlo & Hmid & Hhi)] Hs Hok.
  destruct (valid_thresholds_Q args Hth) as [Hq1 Hq2].
  pose proof Hth as [Hz1 Hz2].
  pose proof (handle_fan_speed_io_ok hw args fan milli w Hs Hok) as Hrun.
  cbv zeta in Hrun. revert Hrun.
  destruct (REMAIN_ACTIVATED w) eqn:Hl; by_band; intros Hrun; try lia;
    try (eexists; eexists; split;
         [eapply ticked_emits; [exact Hrun|reflexivity]
         |vm_compute; split; discriminate]).
  all: exists (ramp_formula args (celsius milli)), true.
  all: destruct (ramp_formula_bounds args (celsius milli))
         as [Hb1 Hb2]; try assumption.
  all: rewrite Zle_Qle in Hlo, Hhi.
  all: split;
    [eapply ticked_emits; [exact Hrun|apply ramp_formula_code; lia]
    |change 0%Q with (inject_Z 0); change 100%Q with (inject_Z 100);
     split; lra].
Qed.

Lemma duty_in_range_witness :
  exists d latch,
    tick_emits hw_65 default_args 7 idle_world d latch /\
    (0 <= d)%Q /\ (d <= 100)%Q.
Proof.
  apply (duty_in_range hw_65 default_args 7 idle_world (65 * 1000)%Q).
  - check_config.
  - reflexivity.
  - reflexivity.
Defined.




(** The midpoint and the start of the default ramp in binary64: with the
    file at 65000 the temperature is 65.0 and the ramp gives 75.0; with
    the file at 55000 it gives 50.0.  No rounding occurs at either point. *)
Example ramp_binary64_midpoint_and_start :
  temperature_binary64 65000 = 65%float /\
  ramp_binary64 default_args (temperature_binary64 65000) = 75%float /\
  ramp_binary64 default_args (temperature_binary64 55000) = 50%float.
Proof. repeat split; vm_compute; reflexivity. Qed.

(** C8.  For a valid configuration, a tick at exactly [min_temp] with the
    latch off engages the latch and emits the configured [fan_low]. *)
Theorem activation_boundary hw args fan w milli :
  valid_config args ->
  sensor hw (reads w) = FileText milli ->
  tx_pwm_ok hw (pwm_calls w) = true ->
  REMAIN_ACTIVATED w = false ->
  (celsius milli == inject_Z (min_temp args))%Q ->
  tick_emits hw args fan w (inject_Z (fan_low args)) true.
Proof.
  intros [Hth _] Hs Hok Hl Ht.
  destruct (valid_thresholds_Q args Hth) as [Hq1 Hq2].
  destruct Hth as [Hz1 Hz2].
  eapply tick_emits_Qeq;
    [|apply (tick_ramp hw args fan w milli Hs Hok); try lra; lia].
  rewrite Ht. unfold Qminus. rewrite Qplus_opp_r.
  unfold Qdiv. rewrite Qmult_0_l, Qmult_0_r. apply Qplus_0_r.
Qed.

Lemma activation_boundary_witness :
  tick_emits (quiet_hw (fun _ => 55%Q)) default_args 7 idle_world
    (inject_Z (fan_low default_args)) true.
Proof.
  apply (activation_boundary _ default_args 7 idle_world (55 * 1000)%Q).
  - check_config.
  - reflexivity.
  - reflexivity.
  - reflexivity.
  - reflexivity.
Defined.

Lemma celsius_milli (t : Q) : (celsius (t * 1000) == t)%Q.
Proof. unfold celsius. field. Qed.

(** C10.  Strictly above [max_temp] (thresholds in order) a tick emits
    exactly 100 whatever [fan_high] is; hence for every configuration with
    [fan_high < 100] there is a temperature at which the emitted duty is
    strictly above [fan_high]. *)
Theorem saturation_ignores_fan_high :
  (forall hw args fan w milli,
     valid_thresholds args ->
     sensor hw (reads w) = FileText milli ->
     tx_pwm_ok hw (pwm_calls w) = true ->
     (inject_Z (max_temp args) < celsius milli)%Q ->
     tick_emits hw args fan w 100 true) /\
  (forall args,
     fan_high args < 100 ->
     exists milli,
       forall hw fan w,
         sensor hw (reads w) = FileText milli ->
         tx_pwm_ok hw (pwm_calls w) = true ->
         exists d latch,
           tick_emits hw args fan w d latch /\
           (inject_Z (fan_high args) < d)%Q).
Proof.
  split.
  - intros hw args fan w milli Hth Hs Hok Hmax.
    destruct (valid_thresholds_Q args Hth) as [Hq1 Hq2].
    apply (tick_saturation hw args fan w milli Hs Hok); lra.
  - intros args Hhigh. exists (hot_milli args). intros hw fan w Hs Hok.
    exists 100%Q, true. split.
    + pose proof (celsius_milli
        (inject_Z (Z.max (max_temp args)
                     (Z.max (min_temp args) (min_cool_temp args)) + 1)))
        as Hc.
      fold (hot_milli args) in Hc.
      apply (tick_saturation hw args fan w (hot_milli args) Hs Hok);
        rewrite Hc; rewrite <- ?Zle_Qle, <- ?Zlt_Qlt; lia.
    + change 100%Q with (inject_Z 100). rewrite <- Zlt_Qlt. exact Hhigh.
Qed.

Lemma saturation_ignores_fan_high_witness :
  tick_emits (quiet_hw (fun _ => 80%Q)) args_fan_high_80 7 engaged_world
    100 true /\
  exists milli,
    forall hw fan w,
      sensor hw (reads w) = FileText milli ->
      tx_pwm_ok hw (pwm_calls w) = true ->
      exists d latch,
        tick_emits hw args_fan_high_80 fan w d latch /\
        (inject_Z (fan_high args_fan_high_80) < d)%Q.
Proof.
  split.
  - apply (proj1 saturation_ignores_fan_high _ args_fan_high_80 7
             engaged_world (80 * 1000)%Q).
    + unfold valid_thresholds. vm_compute. split; reflexivity.
    + reflexivity.
    + reflexivity.
    + vm_compute. reflexivity.
  - apply (proj2 saturation_ignores_fan_high args_fan_high_80).
    vm_compute. reflexivity.
Defined.

(** ** Determinism of a tick *)

(** A tick depends on the world only through the next sensor answer, the
    next PWM answer and the latch; it appends to the trace and leaves the
    rest of the world alone. *)
Lemma handle_fan_speed_frame hw args fan w :
  let r := handle_fan_speed hw args fan w in
  let r0 :=
    handle_fan_speed
      (fixed_hw (sensor hw (reads w)) (tx_pwm_ok hw (pwm_calls w)))
      args fan (bare_world (REMAIN_ACTIVATED w)) in
  fst r = fst r0 /\
  REMAIN_ACTIVATED (snd r) = REMAIN_ACTIVATED (snd r0) /\
  trace (snd r) = trace w ++ trace (snd r0) /\
  fan_control (snd r) = fan_control w /\
  sleeps (snd r) = sleeps w.
Proof.
  cbv zeta.
  set (hw0 := fixed_hw _ _). set (w0 := bare_world _).
  destruct (sensor hw (reads w)) as [milli| |] eqn:Hs.
  - destruct (tx_pwm_ok hw (pwm_calls w)) eqn:Hpwm.
    + rewrite (handle_fan_speed_io_ok hw args fan milli w Hs Hpwm).
      rewrite (handle_fan_speed_io_ok hw0 args fan milli w0 eq_refl eq_refl).
      cbv zeta. subst w0. cbn [bare_world REMAIN_ACTIVATED].
      destruct (REMAIN_ACTIVATED w); by_band; repeat split;
        cbn; rewrite ?app_nil_r; reflexivity.
    + rewrite (handle_fan_speed_pwm_failed hw args fan milli w Hs Hpwm).
      rewrite (handle_fan_speed_pwm_failed hw0 args fan milli w0
                 eq_refl eq_refl).
      cbv zeta. subst w0. cbn [bare_world REMAIN_ACTIVATED].
      destruct (REMAIN_ACTIVATED w); by_band; repeat split;
        cbn; rewrite ?app_nil_r; reflexivity.
  - rewrite (handle_fan_speed_unreadable hw args fan w Hs).
    rewrite (handle_fan_speed_unreadable hw0 args fan w0 eq_refl).
    repeat split; reflexivity.
  - rewrite (handle_fan_speed_garbage hw args fan w Hs).
    rewrite (handle_fan_speed_garbage hw0 args fan w0 eq_refl).
    repeat split; cbn; rewrite ?app_nil_r; reflexivity.
Qed.

(** C9.  Two ticks that get the same sensor answer and the same PWM answer,
    with the same latch, the same configuration and the same handle, have
    the same outcome, leave the same latch and append the same events (so
    the same duty cycle), whatever else their worlds hold; and a tick
    changes nothing of the world but the latch, the trace and the call
    counters. *)
Theorem tick_deterministic hw1 hw2 args fan w1 w2 :
  sensor hw1 (reads w1) = sensor hw2 (reads w2) ->
  tx_pwm_ok hw1 (pwm_calls w1) = tx_pwm_ok hw2 (pwm_calls w2) ->
  REMAIN_ACTIVATED w1 = REMAIN_ACTIVATED w2 ->
  let r1 := handle_fan_speed hw1 args fan w1 in
  let r2 := handle_fan_speed hw2 args fan w2 in
  fst r1 = fst r2 /\
  REMAIN_ACTIVATED (snd r1) = REMAIN_ACTIVATED (snd r2) /\
  (exists evs,
     trace (snd r1) = trace w1 ++ evs /\
     trace (snd r2) = trace w2 ++ evs) /\
  (fan_control (snd r1) = fan_control w1 /\ sleeps (snd r1) = sleeps w1) /\
  (fan_control (snd r2) = fan_control w2 /\ sleeps (snd r2) = sleeps w2).
Proof.
  intros Hs Hpwm Hl. cbv zeta.
  destruct (handle_fan_speed_frame hw1 args fan w1)
    as (Ho1 & Hl1 & Ht1 & Hf1 & Hz1).
  destruct (handle_fan_speed_frame hw2 args fan w2)
    as (Ho2 & Hl2 & Ht2 & Hf2 & Hz2).
  rewrite <- Hs, <- Hpwm, <- Hl in Ho2, Hl2, Ht2.
  split; [congruence|]. split; [congruence|].
  split; [|split; split; assumption].
  eexists. split; [exact Ht1|exact Ht2].
Qed.

Lemma tick_deterministic_witness :
  fst (handle_fan_speed hw_65 default_args 7 engaged_world) =
  fst (handle_fan_speed (fixed_hw (FileText (65 * 1000)) true)
         default_args 7 later_world) /\
  REMAIN_ACTIVATED
    (snd (handle_fan_speed hw_65 default_args 7 engaged_world)) =
  REMAIN_ACTIVATED
    (snd (handle_fan_speed (fixed_hw (FileText (65 * 1000)) true)
            default_args 7 later_world)).
Proof.
  destruct (tick_deterministic hw_65
              (fixed_hw (FileText (65 * 1000)) true)
              default_args 7 engaged_world later_world)
    as (Ho & Hl & _); try reflexivity.
  split; [exact Ho|exact Hl].
Defined.

(** ** The control loop and the shutdown path *)

Lemma shutdown_runs_app (tr1 tr2 : list Event) :
  shutdown_runs (tr1 ++ tr2) = (shutdown_runs tr1 + shutdown_runs tr2)%nat.
Proof.
  induction tr1 as [|ev tr1 IH]; simpl; [reflexivity|]. rewrite IH. lia.
Qed.

Section Loop.

Variable hw : Hardware.
Variable args : Args.

Hypothesis ramp_not_flat : max_temp args <> min_temp args.

Lemma tick_succeeds (fan : Z) (w : World) :
  tick_error hw (reads w) (pwm_calls w) = None ->
  exists w1,
    handle_fan_speed hw args fan w = (Ok tt, w1) /\
    fan_control w1 = fan_control w /\
    reads w1 = S (reads w) /\
    pwm_calls w1 = S (pwm_calls w) /\
    sleeps w1 = sleeps w /\
    shutdown_runs (trace w1) = shutdown_runs (trace w).
Proof.
  unfold tick_error. intros Herr.
  destruct (sensor hw (reads w)) as [milli| |] eqn:Hs; try discriminate.
  destruct (tx_pwm_ok hw (pwm_calls w)) eqn:Hpwm; try discriminate.
  rewrite (handle_fan_speed_io_ok hw args fan milli w Hs Hpwm). cbv zeta.
  destruct (REMAIN_ACTIVATED w); by_band; try lia;
    (eexists; split; [reflexivity|]);
    cbn [ticked fan_control reads pwm_calls sleeps trace];
    rewrite shutdown_runs_app; cbn; repeat split; lia.
Qed.

Lemma tick_fails (fan : Z) (w : World) (e : Exn) :
  tick_error hw (reads w) (pwm_calls w) = Some e ->
  exists w1,
    handle_fan_speed hw args fan w = (Raise e, w1) /\
    is_Exception e = true /\
    fan_control w1 = fan_control w /\
    reads w1 = S (reads w) /\
    pwm_calls w1 = (pwm_calls w + writes_of_failed_tick e)%nat /\
    sleeps w1 = sleeps w /\
    shutdown_runs (trace w1) = shutdown_runs (trace w).
Proof.
  unfold tick_error. intros Herr.
  destruct (sensor hw (reads w)) as [milli| |] eqn:Hs.
  - destruct (tx_pwm_ok hw (pwm_calls w)) eqn:Hpwm; try discriminate.
    injection Herr as <-.
    rewrite (handle_fan_speed_pwm_failed hw args fan milli w Hs Hpwm).
    cbv zeta.
    destruct (REMAIN_ACTIVATED w); by_band; try lia;
      (eexists; split; [reflexivity|]);
      cbn [write_failed fan_control reads pwm_calls sleeps trace
           writes_of_failed_tick is_Exception];
      rewrite shutdown_runs_app; cbn; repeat split; lia.
  - injection Herr as <-.
    rewrite (handle_fan_speed_unreadable hw args fan w Hs).
    eexists. split; [reflexivity|].
    cbn [push tick_reads fan_control reads pwm_calls sleeps trace
         writes_of_failed_tick is_Exception].
    rewrite shutdown_runs_app. cbn. repeat split; lia.
  - injection Herr as <-.
    rewrite (handle_fan_speed_garbage hw args fan w Hs).
    eexists. split; [reflexivity|]. cbn. repeat split; lia.
Qed.

(** One iteration of the loop whose tick fails: the exception leaves the
    loop at once. *)
Lemma while_True_raise (fuel : nat) (fan : Z) (w w1 : World) (e : Exn) :
  fan_control w = Some fan ->
  handle_fan_speed hw args fan w = (Raise e, w1) ->
  while_True hw args (S fuel) w = (Raise e, w1).
Proof.
  intros Hfan Hrun. cbn [while_True].
  unfold mbind, M_bind, get_fan_control. rewrite Hfan, Hrun. reflexivity.
Qed.

(** One iteration whose tick and sleep go through. *)
Lemma while_True_next (fuel : nat) (fan : Z) (w w1 : World) :
  fan_control w = Some fan ->
  handle_fan_speed hw args fan w = (Ok tt, w1) ->
  sleep_interrupted hw (sleeps w1) = false ->
  while_True hw args (S fuel) w =
  while_True hw args fuel (push (EvSleep (wait_time args)) (tick_sleeps w1)).
Proof.
  intros Hfan Hrun Hsleep. cbn [while_True].
  unfold mbind, M_bind, get_fan_control, time_sleep, emit.
  rewrite Hfan, Hrun, Hsleep. reflexivity.
Qed.

(** One iteration whose sleep is interrupted. *)
Lemma while_True_interrupt (fuel : nat) (fan : Z) (w w1 : World) :
  fan_control w = Some fan ->
  handle_fan_speed hw args fan w = (Ok tt, w1) ->
  sleep_interrupted hw (sleeps w1) = true ->
  while_True hw args (S fuel) w = (Raise KeyboardInterrupt, tick_sleeps w1).
Proof.
  intros Hfan Hrun Hsleep. cbn [while_True].
  unfold mbind, M_bind, get_fan_control, time_sleep.
  rewrite Hfan, Hrun, Hsleep. reflexivity.
Qed.

(** [k] iterations without an error and without an interrupt. *)
Lemma while_True_advance (k : nat) :
  forall (fuel : nat) (fan : Z) (w : World),
    fan_control w = Some fan ->
    (forall i, (i < k)%nat ->
       tick_error hw (reads w + i) (pwm_calls w + i) = None /\
       sleep_interrupted hw (sleeps w + i) = false) ->
    exists w',
      while_True hw args (k + fuel) w = while_True hw args fuel w' /\
      advanced k w w'.
Proof.
  induction k as [|k IH]; intros fuel fan w Hfan Hquiet.
  - exists w. split; [reflexivity|]. constructor; try lia; reflexivity.
  - destruct (Hquiet O ltac:(lia)) as [Herr Hsleep].
    repeat rewrite Nat.add_0_r in Herr. rewrite Nat.add_0_r in Hsleep.
    destruct (tick_succeeds fan w Herr)
      as (w1 & Hrun & Hf1 & Hr1 & Hp1 & Hs1 & Hsh1).
    rewrite <- Hs1 in Hsleep.
    cbn [Nat.add].
    rewrite (while_True_next (k + fuel) fan w w1 Hfan Hrun Hsleep).
    set (w2 := push (EvSleep (wait_time args)) (tick_sleeps w1)).
    destruct (IH fuel fan w2) as (w' & Hloop & Hadv).
    + cbn. congruence.
    + intros i Hi. destruct (Hquiet (S i) ltac:(lia)) as [Herr' Hsleep'].
      cbn [w2 push tick_sleeps reads pwm_calls sleeps].
      rewrite Hr1, Hp1, Hs1.
      replace (S (reads w) + i)%nat with (reads w + S i)%nat by lia.
      replace (S (pwm_calls w) + i)%nat with (pwm_calls w + S i)%nat by lia.
      replace (S (sleeps w) + i)%nat with (sleeps w + S i)%nat by lia.
      split; assumption.
    + exists w'. split; [exact Hloop|].
      destruct Hadv as [Af Ar Ap As Ash].
      cbn [w2 push tick_sleeps fan_control reads pwm_calls sleeps trace]
        in Af, Ar, Ap, As, Ash.
      rewrite shutdown_runs_app in Ash. cbn in Ash.
      constructor; try lia; congruence.
Qed.

End Loop.

Section Main.

Variable hw : Hardware.
Variable args : Args.

(** [shutdown] always returns: whatever fails inside is reported and
    dropped.  It makes one PWM call and no read. *)
Lemma shutdown_returns (fan : Z) (w : World) :
  exists w',
    shutdown hw args fan w = (Ok tt, w') /\
    shutdown_runs (trace w') = S (shutdown_runs (trace w)) /\
    reads w' = reads w /\
    pwm_calls w' = S (pwm_calls w) /\
    sleeps w' = sleeps w /\
    exists evs, trace w' = trace w ++ evs.
Proof.
  unfold shutdown, try_except, mbind, M_bind.
  destruct (tx_pwm_ok hw (pwm_calls w)) eqn:Hpwm.
  - rewrite set_fan_speed_ok by exact Hpwm.
    unfold lgpio_gpiochip_close, logging, emit, raise.
    destruct (close_ok hw); cbn; (eexists; split; [reflexivity|]); cbn;
      rewrite !shutdown_runs_app; cbn; repeat split; try lia;
      eexists; rewrite <- !app_assoc; reflexivity.
  - rewrite set_fan_speed_failed by exact Hpwm.
    cbn. eexists. split; [reflexivity|]. cbn.
    rewrite !shutdown_runs_app. cbn. repeat split; try lia.
    eexists. rewrite <- !app_assoc. reflexivity.
Qed.

(** With a working PWM output and a chip that closes, [shutdown] writes
    the constant [DEFAULT_FAN_LOW] and then closes the chip. *)
Lemma shutdown_sequence (fan : Z) (w : World) :
  tx_pwm_ok hw (pwm_calls w) = true ->
  close_ok hw = true ->
  exists w',
    shutdown hw args fan w = (Ok tt, w') /\
    trace w' =
    trace w ++
    [EvTxPwm fan (pwm_gpio args) (pwm_freq args) (inject_Z DEFAULT_FAN_LOW);
     EvLog INFO (MsgFanSpeed (py_int (inject_Z DEFAULT_FAN_LOW))
                   (inject_Z (min_temp args)));
     EvClose fan;
     EvLog INFO MsgShutdownComplete].
Proof.
  intros Hpwm Hclose.
  unfold shutdown, try_except, mbind, M_bind.
  rewrite set_fan_speed_ok by exact Hpwm.
  unfold lgpio_gpiochip_close, logging, emit. rewrite Hclose.
  eexists. split; [reflexivity|]. cbn. rewrite <- !app_assoc. reflexivity.
Qed.

Lemma main_try_enters_loop (fuel : nat) (h : Z) (w : World) :
  chip_open hw = Some h ->
  claim_ok hw = true ->
  tx_pwm_ok hw (pwm_calls w) = true ->
  main_try hw args fuel w = while_True hw args fuel (loop_entry args h w).
Proof.
  intros Hopen Hclaim Hpwm.
  unfold main_try, lgpio_gpiochip_open, lgpio_gpio_claim_output.
  rewrite Hopen, Hclaim.
  unfold mbind, M_bind, mret, M_ret, set_fan_control, get_fan_control, emit.
  cbn [with_fan_control push fan_control].
  rewrite set_fan_speed_ok by exact Hpwm. reflexivity.
Qed.

(** What [main] does with an exception of the loop that derives from
    [Exception]: it is reported, [shutdown] runs once, and the process
    exits with status 1. *)
Lemma main_after_error (fuel : nat) (fan : Z) (e : Exn) (w w1 : World) :
  main_try hw args fuel w = (Raise e, w1) ->
  is_Exception e = true ->
  fan_control w1 = Some fan ->
  exists w',
    main hw args fuel w = (Raise (SystemExit 1), w') /\
    shutdown_runs (trace w') = S (shutdown_runs (trace w1)) /\
    reads w' = reads w1 /\
    pwm_calls w' = S (pwm_calls w1) /\
    sleeps w' = sleeps w1 /\
    exists evs, trace w' = trace w1 ++ EvLog CRITICAL (MsgCritical e) :: evs.
Proof.
  intros Hrun Hexn Hfan.
  unfold main, try_finally, try_except. rewrite Hrun.
  assert (Hhandler : main_except e =
            Some (logging CRITICAL (MsgCritical e);; raise (SystemExit 1))).
  { destruct e; try discriminate; reflexivity. }
  rewrite Hhandler.
  unfold mbind at 1. unfold M_bind, logging, emit, raise.
  unfold main_finally, mbind, M_bind, get_fan_control.
  cbn [push fan_control]. rewrite Hfan.
  set (w2 := push _ w1).
  destruct (shutdown_returns fan w2)
    as (w' & Hsd & Hruns & Hr & Hp & Hs & evs & Htr).
  rewrite Hsd. exists w'. split; [reflexivity|].
  subst w2. cbn [push trace reads pwm_calls sleeps] in *.
  rewrite shutdown_runs_app in Hruns. cbn in Hruns.
  repeat split; try lia.
  exists evs. rewrite Htr, <- app_assoc. reflexivity.
Qed.

(** What [main] does with a [KeyboardInterrupt] of the loop: it is
    reported, [shutdown] runs once, and [main] returns. *)
Lemma main_after_interrupt (fuel : nat) (fan : Z) (w w1 : World) :
  main_try hw args fuel w = (Raise KeyboardInterrupt, w1) ->
  fan_control w1 = Some fan ->
  exists w',
    main hw args fuel w = (Ok tt, w') /\
    shutdown_runs (trace w') = S (shutdown_runs (trace w1)) /\
    reads w' = reads w1 /\
    sleeps w' = sleeps w1.
Proof.
  intros Hrun Hfan.
  unfold main, try_finally, try_except. rewrite Hrun.
  cbn [main_except]. unfold logging, emit.
  unfold main_finally, mbind, M_bind, get_fan_control.
  cbn [push fan_control]. rewrite Hfan.
  set (w2 := push _ w1).
  destruct (shutdown_returns fan w2)
    as (w' & Hsd & Hruns & Hr & Hp & Hs & evs & Htr).
  rewrite Hsd. exists w'. split; [reflexivity|].
  subst w2. cbn [push trace reads pwm_calls sleeps] in *.
  rewrite shutdown_runs_app in Hruns. cbn in Hruns.
  repeat split; lia.
Qed.

End Main.

(** ** The claims about errors, start-up and shutdown *)

(** C7.  A tick whose temperature read or PWM write fails raises that
    error after a single attempt (one read, at most one write).  In [main],
    when the ticks before number [k] go through and tick [k] fails so, the
    loop ends there: [main] exits with status 1 after exactly [k + 1] reads
    and [k] sleeps, having reported the error and run [shutdown] once. *)
Theorem io_error_is_fatal :
  (forall hw args fan w e,
     max_temp args <> min_temp args ->
     tick_error hw (reads w) (pwm_calls w) = Some e ->
     exists w1,
       handle_fan_speed hw args fan w = (Raise e, w1) /\
       reads w1 = S (reads w) /\
       pwm_calls w1 = (pwm_calls w + writes_of_failed_tick e)%nat) /\
  (forall hw args (k fuel : nat) (e : Exn) (h : Z) (w0 : World),
     max_temp args <> min_temp args ->
     chip_open hw = Some h ->
     claim_ok hw = true ->
     tx_pwm_ok hw (pwm_calls w0) = true ->
     (forall i, (i < k)%nat ->
        tick_error hw (reads w0 + i) (S (pwm_calls w0) + i) = None /\
        sleep_interrupted hw (sleeps w0 + i) = false) ->
     tick_error hw (reads w0 + k) (S (pwm_calls w0) + k) = Some e ->
     (k < fuel)%nat ->
     exists w',
       main hw args fuel w0 = (Raise (SystemExit 1), w') /\
       reads w' = (reads w0 + S k)%nat /\
       pwm_calls w' =
       (S (pwm_calls w0) + k + writes_of_failed_tick e + 1)%nat /\
       sleeps w' = (sleeps w0 + k)%nat /\
       In (EvLog CRITICAL (MsgCritical e)) (trace w') /\
       shutdown_runs (trace w') = S (shutdown_runs (trace w0))).
Proof.
  split.
  - intros hw args fan w e Hne Herr.
    destruct (tick_fails hw args Hne fan w e Herr)
      as (w1 & Hrun & _ & _ & Hr & Hp & _).
    exists w1. repeat split; assumption.
  - intros hw args k fuel e h w0 Hne Hopen Hclaim Hpwm Hquiet Herr Hfuel.
    set (ws := loop_entry args h w0).
    assert (Hfan : fan_control ws = Some h) by reflexivity.
    assert (Hws : reads ws = reads w0 /\ pwm_calls ws = S (pwm_calls w0) /\
                  sleeps ws = sleeps w0 /\
                  shutdown_runs (trace ws) = shutdown_runs (trace w0)).
    { subst ws. cbn. rewrite !shutdown_runs_app. cbn.
      repeat split; lia. }
    destruct Hws as (Hr0 & Hp0 & Hs0 & Hsh0).
    replace fuel with (k + S (fuel - S k))%nat by lia.
    destruct (while_True_advance hw args Hne k (S (fuel - S k)) h ws Hfan)
      as (wk & Hloop & [Af Ar Ap As Ash]).
    { rewrite Hr0, Hp0, Hs0. exact Hquiet. }
    rewrite Hr0 in Ar. rewrite Hp0 in Ap. rewrite Hs0 in As.
    rewrite Hfan in Af.
    destruct (tick_fails hw args Hne h wk e)
      as (w1 & Hrun & Hexn & Hf1 & Hr1 & Hp1 & Hs1 & Hsh1).
    { rewrite Ar, Ap. exact Herr. }
    destruct (main_after_error hw args (k + S (fuel - S k)) h e w0 w1)
      as (w' & Hmain & Hruns & Hr & Hp & Hs & evs & Htr).
    { rewrite (main_try_enters_loop hw args _ h w0 Hopen Hclaim Hpwm).
      fold ws. rewrite Hloop.
      apply (while_True_raise hw args _ h wk w1 e Af Hrun). }
    { exact Hexn. }
    { congruence. }
    exists w'. split; [exact Hmain|].
    repeat split; try lia.
    rewrite Htr. apply in_or_app. right. left. reflexivity.
Qed.

Lemma io_error_is_fatal_witness :
  exists w',
    main hw_sensor_dies default_args 5 initial_world =
    (Raise (SystemExit 1), w') /\
    reads w' = 3%nat /\
    sleeps w' = 2%nat /\
    shutdown_runs (trace w') = 1%nat.
Proof.
  destruct (proj2 io_error_is_fatal hw_sensor_dies default_args
              2%nat 5%nat IOError 7 initial_world)
    as (w' & Hmain & Hr & _ & Hs & _ & Hsh).
  - vm_compute. discriminate.
  - reflexivity.
  - reflexivity.
  - reflexivity.
  - intros i Hi. destruct i as [|[|i]]; [split; reflexivity ..|lia].
  - reflexivity.
  - lia.
  - exists w'. split; [exact Hmain|]. split; [exact Hr|].
    split; [exact Hs|exact Hsh].
Defined.

(** C6 (evaluation at the failing input).  With [--fan-low 30] and Ctrl-C
    during the first sleep, [main] returns after one run of [shutdown],
    which closes the chip; the duty cycles written are 30 at start-up, 0
    by the idle tick and, by [shutdown], the constant [DEFAULT_FAN_LOW] =
    50, which is not the configured [fan_low] = 30. *)
Theorem shutdown_ignores_configured_fan_low :
  fan_low args_fan_low_30 = 30 /\
  exists w',
    main hw_ctrl_c args_fan_low_30 5 initial_world = (Ok tt, w') /\
    duties (trace w') = [30%Q; 0%Q; inject_Z DEFAULT_FAN_LOW] /\
    shutdown_runs (trace w') = 1%nat /\
    (exists tr, trace w' = tr ++ [EvClose 7; EvLog INFO MsgShutdownComplete]) /\
    ~ (inject_Z DEFAULT_FAN_LOW == inject_Z (fan_low args_fan_low_30))%Q.
Proof.
  split; [reflexivity|].
  eexists. split; [vm_compute; reflexivity|].
  split; [reflexivity|]. split; [reflexivity|].
  split.
  - eexists [_; _; _; _; _; _; _; _]. reflexivity.
  - intros H. vm_compute in H. discriminate H.
Qed.

(** C2 (counterexample).  The configuration file with [max_temp = 55] is
    accepted at start-up, with [max_temp = min_temp]; the first tick at 55
    degrees then raises [ZeroDivisionError], and the script only stops
    there, at tick time. *)
Lemma flat_ramp_accepted_then_divides_by_zero :
  startup no_options flat_files initial_world = (Ok args_flat, initial_world) /\
  max_temp args_flat = min_temp args_flat /\
  fst (handle_fan_speed hw_55 args_flat 7 idle_world) =
  Raise ZeroDivisionError /\
  exists w',
    script hw_55 no_options flat_files 5 initial_world =
    (Raise (SystemExit 1), w') /\
    reads w' = 1%nat /\
    In (EvLog CRITICAL (MsgCritical ZeroDivisionError)) (trace w').
Proof.
  split; [vm_compute; reflexivity|].
  split; [reflexivity|].
  split; [vm_compute; reflexivity|].
  eexists. split; [vm_compute; reflexivity|].
  split; [reflexivity|].
  cbn. tauto.
Qed.

Lemma tick_never_divides_by_zero hw args fan w :
  max_temp args <> min_temp args ->
  fst (handle_fan_speed hw args fan w) <> Raise ZeroDivisionError.
Proof.
  intros Hne.
  destruct (tick_error hw (reads w) (pwm_calls w)) as [e|] eqn:Herr.
  - destruct (tick_fails hw args Hne fan w e Herr) as (w1 & Hrun & _).
    rewrite Hrun. cbn. intros Heq. injection Heq as ->.
    unfold tick_error in Herr.
    destruct (sensor hw (reads w)); try discriminate.
    destruct (tx_pwm_ok hw (pwm_calls w)); discriminate.
  - destruct (tick_succeeds hw args Hne fan w Herr) as (w1 & Hrun & _).
    rewrite Hrun. discriminate.
Qed.

(** C2 (amended).  Start-up validates nothing: whatever five integers the
    configuration file gives for the thresholds and duty bounds,
    [config_parsing] returns them, in any order and also with
    [max_temp = min_temp]; it is the tick that is safe, and only when
    [max_temp <> min_temp]: then no tick, at any temperature and in any
    world, raises [ZeroDivisionError]. *)
Theorem no_validation_division_safe_unless_flat :
  (forall (mn mc mx lo hi : Z) (args : Args) (w : World),
     exists args',
       config_parsing (thresholds_ini mn mc mx lo hi) args w = (Ok args', w) /\
       min_temp args' = mn /\ min_cool_temp args' = mc /\
       max_temp args' = mx /\ fan_low args' = lo /\ fan_high args' = hi) /\
  (forall hw args fan w,
     max_temp args <> min_temp args ->
     fst (handle_fan_speed hw args fan w) <> Raise ZeroDivisionError).
Proof.
  split.
  - intros mn mc mx lo hi args w.
    eexists. split; [reflexivity|]. repeat split; reflexivity.
  - exact tick_never_divides_by_zero.
Qed.

Lemma no_validation_division_safe_unless_flat_witness :
  fst (handle_fan_speed hw_65 default_args 7 engaged_world) <>
  Raise ZeroDivisionError.
Proof.
  apply (proj2 no_validation_division_safe_unless_flat
           hw_65 default_args 7 engaged_world).
  vm_compute. discriminate.
Defined.

(** * Further properties *)

(** ** Shutdown and the exits of [main] *)

Lemma closes_app (tr1 tr2 : list Event) :
  closes (tr1 ++ tr2) = closes tr1 ++ closes tr2.
Proof.
  induction tr1 as [|ev tr1 IH]; simpl; [reflexivity|].
  destruct ev; simpl; rewrite IH; reflexivity.
Qed.

(** One run of [shutdown], with everything it does to the world. *)
Lemma shutdown_effect hw args fan w :
  exists w',
    shutdown hw args fan w = (Ok tt, w') /\
    trace w' =
    trace w ++
    shutdown_events args fan (tx_pwm_ok hw (pwm_calls w)) (close_ok hw) /\
    REMAIN_ACTIVATED w' = REMAIN_ACTIVATED w /\
    fan_control w' = fan_control w /\
    reads w' = reads w /\
    pwm_calls w' = S (pwm_calls w) /\
    sleeps w' = sleeps w /\
    shutdown_runs (trace w') = S (shutdown_runs (trace w)) /\
    closes (trace w') =
    closes (trace w) ++
    (if tx_pwm_ok hw (pwm_calls w) && close_ok hw then [fan] else []).
Proof.
  unfold shutdown, try_except, mbind, M_bind, shutdown_events.
  destruct (tx_pwm_ok hw (pwm_calls w)) eqn:Hpwm.
  - rewrite set_fan_speed_ok by exact Hpwm.
    unfold lgpio_gpiochip_close, logging, emit, raise.
    destruct (close_ok hw); cbn; (eexists; split; [reflexivity|]); cbn;
      rewrite <- !app_assoc; cbn;
      rewrite !shutdown_runs_app, !closes_app; cbn;
      rewrite ?app_nil_r; repeat split; lia.
  - rewrite set_fan_speed_failed by exact Hpwm.
    cbn. eexists. split; [reflexivity|]. cbn.
    rewrite <- !app_assoc. cbn.
    rewrite !shutdown_runs_app, !closes_app. cbn.
    rewrite ?app_nil_r. repeat split; lia.
Qed.

(** X1.  [shutdown] never raises, whatever the hardware does: it makes one
    PWM call and no read, leaves the latch alone, and reports once.  It
    writes the constant [DEFAULT_FAN_LOW]; the chip is closed only when
    that write went through, and a failure of either step is logged and
    dropped. *)
Theorem shutdown_never_raises hw args fan w :
  exists w',
    shutdown hw args fan w = (Ok tt, w') /\
    trace w' =
    trace w ++
    shutdown_events args fan (tx_pwm_ok hw (pwm_calls w)) (close_ok hw) /\
    REMAIN_ACTIVATED w' = REMAIN_ACTIVATED w /\
    fan_control w' = fan_control w /\
    reads w' = reads w /\
    pwm_calls w' = S (pwm_calls w) /\
    sleeps w' = sleeps w /\
    shutdown_runs (trace w') = S (shutdown_runs (trace w)) /\
    closes (trace w') =
    closes (trace w) ++
    (if tx_pwm_ok hw (pwm_calls w) && close_ok hw then [fan] else []).
Proof. exact (shutdown_effect hw args fan w). Qed.

(** X2.  When [gpiochip_open] fails, [main] reports the error and then its
    [finally] clause reads the local [fan_control] before any assignment:
    [main] ends with [UnboundLocalError] in place of the exit status 1,
    and [shutdown] does not run. *)
Theorem open_failure_skips_shutdown hw args fuel w :
  chip_open hw = None ->
  fan_control w = None ->
  main hw args fuel w =
  (Raise UnboundLocalError, push (EvLog CRITICAL (MsgCritical LgpioError)) w).
Proof.
  intros Hopen Hfan.
  unfold main, try_finally, try_except, main_try, lgpio_gpiochip_open.
  rewrite Hopen. unfold mbind at 1. unfold M_bind, raise.
  cbn [main_except is_Exception].
  unfold mbind at 1. unfold M_bind, logging, emit, raise.
  unfold main_finally, mbind, M_bind, get_fan_control.
  cbn [push fan_control]. rewrite Hfan. reflexivity.
Qed.

Lemma open_failure_skips_shutdown_witness :
  main hw_no_chip default_args 5 initial_world =
  (Raise UnboundLocalError,
   push (EvLog CRITICAL (MsgCritical LgpioError)) initial_world) /\
  shutdown_runs
    (trace (snd (main hw_no_chip default_args 5 initial_world))) = O.
Proof.
  split.
  - apply (open_failure_skips_shutdown hw_no_chip default_args 5
             initial_world); reflexivity.
  - reflexivity.
Defined.

(** What [main] does with an exception of its [try] suite that derives
    from [Exception], with the trace: the report, then one run of
    [shutdown] on the chip that [fan_control] holds. *)
Lemma main_failed hw args fuel fan e w w1 :
  main_try hw args fuel w = (Raise e, w1) ->
  is_Exception e = true ->
  fan_control w1 = Some fan ->
  exists w',
    main hw args fuel w = (Raise (SystemExit 1), w') /\
    trace w' =
    trace w1 ++
    EvLog CRITICAL (MsgCritical e)
    :: shutdown_events args fan (tx_pwm_ok hw (pwm_calls w1)) (close_ok hw) /\
    fan_control w' = Some fan /\
    reads w' = reads w1 /\
    pwm_calls w' = S (pwm_calls w1) /\
    sleeps w' = sleeps w1.
Proof.
  intros Hrun Hexn Hfan.
  unfold main, try_finally, try_except. rewrite Hrun.
  assert (Hhandler : main_except e =
            Some (logging CRITICAL (MsgCritical e);; raise (SystemExit 1))).
  { destruct e; try discriminate; reflexivity. }
  rewrite Hhandler.
  unfold mbind at 1. unfold M_bind, logging, emit, raise.
  unfold main_finally, mbind, M_bind, get_fan_control.
  cbn [push fan_control]. rewrite Hfan.
  destruct (shutdown_effect hw args fan
              (push (EvLog CRITICAL (MsgCritical e)) w1))
    as (w' & Hsd & Htr & _ & Hf & Hr & Hp & Hs & _).
  rewrite Hsd. exists w'. split; [reflexivity|].
  cbn [push trace reads pwm_calls sleeps fan_control] in *.
  rewrite Htr, <- app_assoc. repeat split; try assumption. congruence.
Qed.

(** X3.  When the chip was opened and start-up then fails (claiming the
    pin, or the first PWM write), [main] exits with status 1 without
    reading the sensor: it reports the error and then runs [shutdown]
    once, on the chip that was opened, so that this chip is the one
    written to and, if that write succeeds, the one closed. *)
Theorem startup_failure_runs_shutdown hw args fuel h w :
  chip_open hw = Some h ->
  claim_ok hw = false \/ tx_pwm_ok hw (pwm_calls w) = false ->
  exists w' tr,
    main hw args fuel w = (Raise (SystemExit 1), w') /\
    trace w' =
    tr ++
    EvLog CRITICAL (MsgCritical LgpioError)
    :: shutdown_events args h
         (tx_pwm_ok hw
            (if claim_ok hw then S (pwm_calls w) else pwm_calls w))
         (close_ok hw) /\
    shutdown_runs tr = shutdown_runs (trace w) /\
    closes tr = closes (trace w) /\
    duties tr = duties (trace w) /\
    fan_control w' = Some h /\
    reads w' = reads w /\
    sleeps w' = sleeps w.
Proof.
  intros Hopen Hfail.
  assert (Htry : exists w1,
            main_try hw args fuel w = (Raise LgpioError, w1) /\
            fan_control w1 = Some h /\ reads w1 = reads w /\
            sleeps w1 = sleeps w /\
            pwm_calls w1 =
            (if claim_ok hw then S (pwm_calls w) else pwm_calls w) /\
            shutdown_runs (trace w1) = shutdown_runs (trace w) /\
            closes (trace w1) = closes (trace w) /\
            duties (trace w1) = duties (trace w)).
  { unfold main_try, lgpio_gpiochip_open, lgpio_gpio_claim_output.
    rewrite Hopen.
    destruct (claim_ok hw) eqn:Hclaim;
      unfold mbind, M_bind, mret, M_ret, set_fan_control, get_fan_control,
        emit, raise;
      cbn [with_fan_control push fan_control].
    - destruct Hfail as [Hfail|Hfail]; [discriminate|].
      rewrite set_fan_speed_failed by exact Hfail.
      eexists. split; [reflexivity|]. cbn.
      rewrite !shutdown_runs_app, !closes_app, !duties_app. cbn.
      rewrite !app_nil_r. repeat split; lia.
    - eexists. split; [reflexivity|]. cbn. repeat split; reflexivity. }
  destruct Htry as (w1 & Hrun & Hfan & Hr & Hs & Hp & Hsh & Hcl & Hdu).
  destruct (main_failed hw args fuel h LgpioError w w1 Hrun eq_refl Hfan)
    as (w' & Hmain & Htr & Hf' & Hr' & _ & Hs').
  exists w', (trace w1). split; [exact Hmain|].
  rewrite Htr, Hp.
  repeat split; try assumption; congruence.
Qed.

Lemma startup_failure_runs_shutdown_witness :
  exists w',
    main hw_claim_fails default_args 5 initial_world =
    (Raise (SystemExit 1), w') /\
    reads w' = O /\
    closes (trace w') = [7].
Proof.
  destruct (startup_failure_runs_shutdown hw_claim_fails default_args 5 7
              initial_world)
    as (w' & tr & Hmain & Htr & _ & Hcl & _ & _ & Hr & _).
  - reflexivity.
  - left. reflexivity.
  - exists w'. split; [exact Hmain|]. split; [exact Hr|].
    rewrite Htr, closes_app, Hcl. reflexivity.
Defined.

(** What [main] does with a [KeyboardInterrupt] of the loop, with the
    trace. *)
Lemma main_interrupted hw args fuel fan w w1 :
  main_try hw args fuel w = (Raise KeyboardInterrupt, w1) ->
  fan_control w1 = Some fan ->
  exists w',
    main hw args fuel w = (Ok tt, w') /\
    trace w' =
    trace w1 ++
    EvLog INFO MsgInterrupt
    :: shutdown_events args fan (tx_pwm_ok hw (pwm_calls w1)) (close_ok hw) /\
    reads w' = reads w1 /\
    pwm_calls w' = S (pwm_calls w1) /\
    sleeps w' = sleeps w1.
Proof.
  intros Hrun Hfan.
  unfold main, try_finally, try_except. rewrite Hrun.
  cbn [main_except]. unfold logging, emit.
  unfold main_finally, mbind, M_bind, get_fan_control.
  cbn [push fan_control]. rewrite Hfan.
  destruct (shutdown_effect hw args fan (push (EvLog INFO MsgInterrupt) w1))
    as (w' & Hsd & Htr & _ & _ & Hr & Hp & Hs & _).
  rewrite Hsd. exists w'. split; [reflexivity|].
  cbn [push trace reads pwm_calls sleeps] in *.
  rewrite Htr, <- app_assoc. repeat split; assumption.
Qed.

(** X4.  Ctrl-C is not a failure: when start-up and the first [k] ticks
    and sleeps go through and the sleep after tick [k] is interrupted,
    [main] returns normally, after [k + 1] reads, having logged the
    interrupt and then run [shutdown] once. *)
Theorem interrupt_is_graceful hw args (k fuel : nat) (h : Z) (w0 : World) :
  max_temp args <> min_temp args ->
  chip_open hw = Some h ->
  claim_ok hw = true ->
  tx_pwm_ok hw (pwm_calls w0) = true ->
  (forall i, (i < k)%nat ->
     tick_error hw (reads w0 + i) (S (pwm_calls w0) + i) = None /\
     sleep_interrupted hw (sleeps w0 + i) = false) ->
  tick_error hw (reads w0 + k) (S (pwm_calls w0) + k) = None ->
  sleep_interrupted hw (sleeps w0 + k) = true ->
  (k < fuel)%nat ->
  exists w' tr,
    main hw args fuel w0 = (Ok tt, w') /\
    reads w' = (reads w0 + S k)%nat /\
    sleeps w' = (sleeps w0 + S k)%nat /\
    pwm_calls w' = (S (pwm_calls w0) + S k + 1)%nat /\
    trace w' =
    tr ++
    EvLog INFO MsgInterrupt
    :: shutdown_events args h
         (tx_pwm_ok hw (S (pwm_calls w0) + S k)) (close_ok hw) /\
    shutdown_runs tr = shutdown_runs (trace w0).
Proof.
  intros Hne Hopen Hclaim Hpwm Hquiet Htick Hint Hfuel.
  set (ws := loop_entry args h w0).
  assert (Hfan : fan_control ws = Some h) by reflexivity.
  assert (Hws : reads ws = reads w0 /\ pwm_calls ws = S (pwm_calls w0) /\
                sleeps ws = sleeps w0 /\
                shutdown_runs (trace ws) = shutdown_runs (trace w0)).
  { subst ws. cbn. rewrite !shutdown_runs_app. cbn. repeat split; lia. }
  destruct Hws as (Hr0 & Hp0 & Hs0 & Hsh0).
  replace fuel with (k + S (fuel - S k))%nat by lia.
  destruct (while_True_advance hw args Hne k (S (fuel - S k)) h ws Hfan)
    as (wk & Hloop & [Af Ar Ap As Ash]).
  { rewrite Hr0, Hp0, Hs0. exact Hquiet. }
  rewrite Hr0 in Ar. rewrite Hp0 in Ap. rewrite Hs0 in As.
  rewrite Hfan in Af.
  destruct (tick_succeeds hw args Hne h wk)
    as (w1 & Hrun & Hf1 & Hr1 & Hp1 & Hs1 & Hsh1).
  { rewrite Ar, Ap. exact Htick. }
  destruct (main_interrupted hw args (k + S (fuel - S k)) h w0
              (tick_sleeps w1))
    as (w' & Hmain & Htr & Hr & Hp & Hs).
  { rewrite (main_try_enters_loop hw args _ h w0 Hopen Hclaim Hpwm).
    fold ws. rewrite Hloop.
    apply (while_True_interrupt hw args _ h wk w1 Af Hrun).
    rewrite Hs1, As. exact Hint. }
  { cbn. congruence. }
  cbn [tick_sleeps reads pwm_calls sleeps trace] in *.
  exists w', (trace w1). split; [exact Hmain|].
  split; [lia|]. split; [lia|]. split; [lia|].
  split; [|congruence].
  rewrite Htr. replace (pwm_calls w1) with (S (pwm_calls w0) + S k)%nat by lia.
  reflexivity.
Qed.

Lemma interrupt_is_graceful_witness :
  exists w',
    main hw_ctrl_c_third default_args 9 initial_world = (Ok tt, w') /\
    reads w' = 3%nat /\
    sleeps w' = 3%nat /\
    shutdown_runs (trace w') = 1%nat.
Proof.
  destruct (interrupt_is_graceful hw_ctrl_c_third default_args
              2%nat 9%nat 7 initial_world)
    as (w' & tr & Hmain & Hr & Hs & _ & Htr & Hsh).
  - vm_compute. discriminate.
  - reflexivity.
  - reflexivity.
  - reflexivity.
  - intros i Hi. destruct i as [|[|i]]; [split; reflexivity ..|lia].
  - reflexivity.
  - reflexivity.
  - lia.
  - exists w'. split; [exact Hmain|]. split; [exact Hr|].
    split; [exact Hs|].
    rewrite Htr, shutdown_runs_app, Hsh. reflexivity.
Defined.

(** X5.  The loop has no exit of its own: with a [wait_time] that is not
    negative, as long as every tick goes through and no sleep is
    interrupted, [main] is still running after any number of iterations,
    with one read and one sleep per iteration, and [shutdown] has not
    run. *)
Theorem loop_runs_while_nothing_fails hw args (fuel : nat) (h : Z)
    (w0 : World) :
  0 <= wait_time args ->
  max_temp args <> min_temp args ->
  chip_open hw = Some h ->
  claim_ok hw = true ->
  tx_pwm_ok hw (pwm_calls w0) = true ->
  (forall i, (i < fuel)%nat ->
     tick_error hw (reads w0 + i) (S (pwm_calls w0) + i) = None /\
     sleep_interrupted hw (sleeps w0 + i) = false) ->
  exists w',
    main hw args fuel w0 = (Running, w') /\
    reads w' = (reads w0 + fuel)%nat /\
    sleeps w' = (sleeps w0 + fuel)%nat /\
    pwm_calls w' = (S (pwm_calls w0) + fuel)%nat /\
    shutdown_runs (trace w') = shutdown_runs (trace w0).
Proof.
  intros Hwait Hne Hopen Hclaim Hpwm Hquiet.
  set (ws := loop_entry args h w0).
  assert (Hfan : fan_control ws = Some h) by reflexivity.
  assert (Hws : reads ws = reads w0 /\ pwm_calls ws = S (pwm_calls w0) /\
                sleeps ws = sleeps w0 /\
                shutdown_runs (trace ws) = shutdown_runs (trace w0)).
  { subst ws. cbn. rewrite !shutdown_runs_app. cbn. repeat split; lia. }
  destruct Hws as (Hr0 & Hp0 & Hs0 & Hsh0).
  destruct (while_True_advance hw args Hne fuel O h ws Hfan)
    as (wk & Hloop & [Af Ar Ap As Ash]).
  { rewrite Hr0, Hp0, Hs0. exact Hquiet. }
  rewrite Nat.add_0_r in Hloop.
  exists wk. split.
  - unfold main, try_finally, try_except.
    rewrite (main_try_enters_loop hw args _ h w0 Hopen Hclaim Hpwm).
    fold ws. rewrite Hloop. reflexivity.
  - repeat split; congruence.
Qed.

Lemma loop_runs_while_nothing_fails_witness :
  exists w',
    main hw_65 default_args 4 initial_world = (Running, w') /\
    reads w' = 4%nat /\
    shutdown_runs (trace w') = O.
Proof.
  destruct (loop_runs_while_nothing_fails hw_65 default_args 4 7
              initial_world)
    as (w' & Hmain & Hr & _ & _ & Hsh).
  - vm_compute. discriminate.
  - vm_compute. discriminate.
  - reflexivity.
  - reflexivity.
  - reflexivity.
  - intros i _. split; reflexivity.
  - exists w'. split; [exact Hmain|]. split; [exact Hr|exact Hsh].
Defined.

(** ** One tick, in full *)

Lemma ramp_formula_monotone (args : Args) (t1 t2 : Q) :
  min_temp args < max_temp args ->
  fan_low args <= fan_high args ->
  (t1 <= t2)%Q ->
  (ramp_formula args t1 <= ramp_formula args t2)%Q.
Proof.
  intros Hord Hduty Ht.
  rewrite Zlt_Qlt in Hord. rewrite Zle_Qle in Hduty.
  unfold ramp_formula.
  set (lo := inject_Z (fan_low args)) in *.
  set (hi := inject_Z (fan_high args)) in *.
  set (a := inject_Z (min_temp args)) in *.
  set (b := inject_Z (max_temp args)) in *.
  apply Qplus_le_r. unfold Qdiv.
  apply Qmult_le_compat_r.
  - nra.
  - apply Qinv_le_0_compat. lra.
Qed.

Lemma ramp_formula_at_max (args : Args) (t : Q) :
  max_temp args <> min_temp args ->
  (t == inject_Z (max_temp args))%Q ->
  (ramp_formula args t == inject_Z (fan_high args))%Q.
Proof.
  intros Hne Ht. unfold ramp_formula. rewrite Ht. field.
  intros Heq. apply Hne. apply inject_Z_injective. lra.
Qed.

(** The table of the policy: what a tick with working input and output
    writes and where it leaves the latch, band by band. *)
Lemma tick_bands hw args fan w milli :
  valid_config args ->
  sensor hw (reads w) = FileText milli ->
  tx_pwm_ok hw (pwm_calls w) = true ->
  exists d latch,
    tick_emits hw args fan w d latch /\
    ((latch = false /\ (d == 0)%Q /\
      ((REMAIN_ACTIVATED w = false /\
        (celsius milli < inject_Z (min_temp args))%Q) \/
       (celsius milli < inject_Z (min_cool_temp args))%Q)) \/
     (latch = true /\ (d == inject_Z DEFAULT_FAN_LOW)%Q /\
      REMAIN_ACTIVATED w = true /\
      (inject_Z (min_cool_temp args) <= celsius milli)%Q /\
      (celsius milli < inject_Z (min_temp args))%Q) \/
     (latch = true /\ (d == inject_Z DEFAULT_FAN_MAX)%Q /\
      (inject_Z (max_temp args) < celsius milli)%Q) \/
     (latch = true /\ (d == ramp_formula args (celsius milli))%Q /\
      (inject_Z (min_temp args) <= celsius milli)%Q /\
      (celsius milli <= inject_Z (max_temp args))%Q)).
Proof.
  intros [Hth Hdb] Hs Hok.
  destruct (valid_thresholds_Q args Hth) as [Hq1 Hq2].
  pose proof Hth as [Hz1 Hz2].
  set (t := celsius milli).
  destruct (REMAIN_ACTIVATED w) eqn:Hl.
  - destruct (Qlt_le_dec t (inject_Z (min_cool_temp args))) as [Hc|Hc].
    { exists 0%Q, false. split.
      - apply (tick_cooldown hw args fan w milli Hs Hok Hc). lia.
      - left. split; [reflexivity|]. split; [reflexivity|]. right. exact Hc. }
    destruct (Qlt_le_dec t (inject_Z (min_temp args))) as [Hm|Hm].
    { exists (inject_Z DEFAULT_FAN_LOW), true. split.
      - apply (tick_low_band hw args fan w milli Hs Hok Hl Hc Hm).
      - right. left. repeat split; try reflexivity; assumption. }
    destruct (Qlt_le_dec (inject_Z (max_temp args)) t) as [Hx|Hx].
    { exists (inject_Z DEFAULT_FAN_MAX), true. split.
      - apply (tick_saturation hw args fan w milli Hs Hok Hc Hm Hx).
      - right. right. left. repeat split; try reflexivity; assumption. }
    exists (ramp_formula args t), true. split.
    + eapply tick_emits_Qeq; [apply ramp_formula_code; lia|].
      apply (tick_ramp hw args fan w milli Hs Hok); try assumption. lia.
    + right. right. right. repeat split; try reflexivity; assumption.
  - destruct (Qlt_le_dec t (inject_Z (min_temp args))) as [Hm|Hm].
    { exists 0%Q, false. split.
      - apply (tick_idle_hold hw args fan w milli Hs Hok Hl Hm).
      - left. split; [reflexivity|]. split; [reflexivity|]. left.
        split; [reflexivity|exact Hm]. }
    assert (Hc : (inject_Z (min_cool_temp args) <= t)%Q) by lra.
    destruct (Qlt_le_dec (inject_Z (max_temp args)) t) as [Hx|Hx].
    { exists (inject_Z DEFAULT_FAN_MAX), true. split.
      - apply (tick_saturation hw args fan w milli Hs Hok Hc Hm Hx).
      - right. right. left. repeat split; try reflexivity; assumption. }
    exists (ramp_formula args t), true. split.
    + eapply tick_emits_Qeq; [apply ramp_formula_code; lia|].
      apply (tick_ramp hw args fan w milli Hs Hok); try assumption. lia.
    + right. right. right. repeat split; try reflexivity; assumption.
Qed.

(** X6.  The policy as a table.  For a valid configuration, a tick whose
    read and write succeed writes one duty cycle: 0 with the latch off
    (idle and below [min_temp], or below [min_cool_temp]); the constant 50
    with the latch on (engaged, from [min_cool_temp] up to [min_temp]);
    the constant 100 with the latch on (above [max_temp]); a value within
    [fan_low, fan_high] with the latch on (from [min_temp] to [max_temp],
    both included). *)
Theorem policy_table hw args fan w milli :
  valid_config args ->
  sensor hw (reads w) = FileText milli ->
  tx_pwm_ok hw (pwm_calls w) = true ->
  exists d latch,
    tick_emits hw args fan w d latch /\
    ((latch = false /\ (d == 0)%Q /\
      ((REMAIN_ACTIVATED w = false /\
        (celsius milli < inject_Z (min_temp args))%Q) \/
       (celsius milli < inject_Z (min_cool_temp args))%Q)) \/
     (latch = true /\ (d == 50)%Q /\
      REMAIN_ACTIVATED w = true /\
      (inject_Z (min_cool_temp args) <= celsius milli)%Q /\
      (celsius milli < inject_Z (min_temp args))%Q) \/
     (latch = true /\ (d == 100)%Q /\
      (inject_Z (max_temp args) < celsius milli)%Q) \/
     (latch = true /\
      (inject_Z (fan_low args) <= d)%Q /\
      (d <= inject_Z (fan_high args))%Q /\
      (inject_Z (min_temp args) <= celsius milli)%Q /\
      (celsius milli <= inject_Z (max_temp args))%Q)).
Proof.
  intros Hvalid Hs Hok.
  destruct (tick_bands hw args fan w milli Hvalid Hs Hok)
    as (d & latch & Hemit & T).
  exists d, latch. split; [exact Hemit|].
  destruct T as [T|[T|[T|(Hl & Hd & L & U)]]];
    [left; exact T|right; left; exact T|right; right; left; exact T|].
  right. right. right.
  destruct Hvalid as [[Hz1 Hz2] (Hlo & Hmid & Hhi)].
  destruct (ramp_formula_bounds args (celsius milli) Hz2 Hmid L U)
    as [B1 B2].
  rewrite Hd. repeat split; assumption.
Qed.

Lemma policy_table_witness :
  exists d latch,
    tick_emits hw_52 default_args 7 idle_world d latch /\
    latch = false /\ (d == 0)%Q.
Proof.
  destruct (policy_table hw_52 default_args 7 idle_world (52 * 1000)%Q)
    as (d & latch & Hemit & Hcases).
  - check_config.
  - reflexivity.
  - reflexivity.
  - exists d, latch. split; [exact Hemit|].
    destruct Hcases as [(Hl & Hd & _)|[(_ & _ & Hact & _)|[(_ & _ & Hx)|
                        (_ & _ & _ & Hm & _)]]].
    + split; assumption.
    + discriminate Hact.
    + exfalso. vm_compute in Hx. discriminate Hx.
    + exfalso. apply Hm. reflexivity.
Defined.

(** X7.  Hotter never means slower, provided the configured [fan_low] is
    at least the constant 50 of the low-speed band whenever the latch is
    on: for a valid configuration and two ticks with the same latch, the
    duty at the higher temperature is at least the duty at the lower one,
    and if the lower one leaves the latch on so does the higher one. *)
Theorem duty_monotone_in_temperature hw1 hw2 args fan w1 w2 m1 m2 :
  valid_config args ->
  sensor hw1 (reads w1) = FileText m1 ->
  tx_pwm_ok hw1 (pwm_calls w1) = true ->
  sensor hw2 (reads w2) = FileText m2 ->
  tx_pwm_ok hw2 (pwm_calls w2) = true ->
  REMAIN_ACTIVATED w1 = REMAIN_ACTIVATED w2 ->
  (REMAIN_ACTIVATED w1 = true -> DEFAULT_FAN_LOW <= fan_low args) ->
  (celsius m1 <= celsius m2)%Q ->
  exists d1 d2 l1 l2,
    tick_emits hw1 args fan w1 d1 l1 /\
    tick_emits hw2 args fan w2 d2 l2 /\
    (d1 <= d2)%Q /\
    (l1 = true -> l2 = true).
Proof.
  intros Hvalid Hs1 Hok1 Hs2 Hok2 Hlatch Hlow Ht.
  destruct (tick_bands hw1 args fan w1 m1 Hvalid Hs1 Hok1)
    as (d1 & l1 & He1 & T1).
  destruct (tick_bands hw2 args fan w2 m2 Hvalid Hs2 Hok2)
    as (d2 & l2 & He2 & T2).
  exists d1, d2, l1, l2. split; [exact He1|]. split; [exact He2|].
  destruct Hvalid as [Hth (Hlo & Hmid & Hhi)].
  destruct (valid_thresholds_Q args Hth) as [Hq1 Hq2].
  destruct Hth as [Hz1 Hz2].
  pose proof (ramp_formula_monotone args _ _ Hz2 Hmid Ht) as Hmono.
  rewrite Zle_Qle in Hlo, Hhi.
  change (inject_Z 0) with 0%Q in Hlo.
  change (inject_Z 100) with 100%Q in Hhi.
  assert (Hlow' : REMAIN_ACTIVATED w1 = true ->
                  (50 <= inject_Z (fan_low args))%Q).
  { intros Hact. apply Hlow in Hact. rewrite Zle_Qle in Hact. exact Hact. }
  change (inject_Z DEFAULT_FAN_LOW) with 50%Q in *.
  change (inject_Z DEFAULT_FAN_MAX) with 100%Q in *.
  set (t1 := celsius m1) in *. set (t2 := celsius m2) in *.
  destruct T1 as [(-> & Hd1 & [[A1 U1]|U1])
                 |[(-> & Hd1 & A1 & L1 & U1)
                  |[(-> & Hd1 & X1)|(-> & Hd1 & L1 & U1)]]];
    destruct T2 as [(-> & Hd2 & [[A2 U2]|U2])
                   |[(-> & Hd2 & A2 & L2 & U2)
                    |[(-> & Hd2 & X2)|(-> & Hd2 & L2 & U2)]]];
    rewrite Hd1, Hd2;
    try (pose proof (ramp_formula_bounds args t1 Hz2 Hmid
                       ltac:(assumption) ltac:(assumption)) as [B1 B1']);
    try (pose proof (ramp_formula_bounds args t2 Hz2 Hmid
                       ltac:(assumption) ltac:(assumption)) as [B2 B2']);
    try (specialize (Hlow' ltac:(congruence)));
    first [ exfalso; congruence
          | exfalso; lra
          | split; [lra | intros; first [reflexivity | discriminate]] ].
Qed.

Lemma duty_monotone_in_temperature_witness :
  exists d1 d2 l1 l2,
    tick_emits hw_52 default_args 7 engaged_world d1 l1 /\
    tick_emits hw_65 default_args 7 engaged_world d2 l2 /\
    (d1 <= d2)%Q /\
    (l1 = true -> l2 = true).
Proof.
  apply (duty_monotone_in_temperature hw_52 hw_65 default_args 7
           engaged_world engaged_world (52 * 1000)%Q (65 * 1000)%Q).
  - check_config.
  - reflexivity.
  - reflexivity.
  - reflexivity.
  - reflexivity.
  - reflexivity.
  - intros _. vm_compute. discriminate.
  - vm_compute. discriminate.
Defined.

(** X8.  With a configured [fan_low] below 50 the policy is not monotone:
    with the latch on, the tick at [min_cool_temp] writes the constant 50
    and the tick at the higher [min_temp] writes the smaller [fan_low]. *)
Theorem fan_slows_down_at_min_temp hw1 hw2 args fan w1 w2 :
  valid_config args ->
  fan_low args < DEFAULT_FAN_LOW ->
  sensor hw1 (reads w1) = FileText (inject_Z (min_cool_temp args) * 1000) ->
  tx_pwm_ok hw1 (pwm_calls w1) = true ->
  REMAIN_ACTIVATED w1 = true ->
  sensor hw2 (reads w2) = FileText (inject_Z (min_temp args) * 1000) ->
  tx_pwm_ok hw2 (pwm_calls w2) = true ->
  REMAIN_ACTIVATED w2 = true ->
  exists d1 d2,
    tick_emits hw1 args fan w1 d1 true /\
    tick_emits hw2 args fan w2 d2 true /\
    (celsius (inject_Z (min_cool_temp args) * 1000)
     < celsius (inject_Z (min_temp args) * 1000))%Q /\
    (d2 < d1)%Q.
Proof.
  intros [Hth Hdb] Hlow Hs1 Hok1 Hl1 Hs2 Hok2 Hl2.
  destruct (valid_thresholds_Q args Hth) as [Hq1 Hq2].
  destruct Hth as [Hz1 Hz2].
  pose proof (celsius_milli (inject_Z (min_cool_temp args))) as Hc1.
  pose proof (celsius_milli (inject_Z (min_temp args))) as Hc2.
  exists (inject_Z DEFAULT_FAN_LOW), (inject_Z (fan_low args)).
  split; [|split; [|split]].
  - apply (tick_low_band hw1 args fan w1 _ Hs1 Hok1 Hl1); rewrite Hc1; lra.
  - eapply tick_emits_Qeq;
      [|apply (tick_ramp hw2 args fan w2 _ Hs2 Hok2);
        rewrite ?Hc2; try lra; lia].
    rewrite Hc2. unfold Qminus. rewrite Qplus_opp_r.
    unfold Qdiv. rewrite Qmult_0_l, Qmult_0_r. apply Qplus_0_r.
  - rewrite Hc1, Hc2. exact Hq1.
  - rewrite <- Zlt_Qlt. exact Hlow.
Qed.

Lemma fan_slows_down_at_min_temp_witness :
  exists d1 d2,
    tick_emits (quiet_hw (fun _ => inject_Z 50)) args_fan_low_30 7
      engaged_world d1 true /\
    tick_emits (quiet_hw (fun _ => inject_Z 55)) args_fan_low_30 7
      engaged_world d2 true /\
    (d2 < d1)%Q.
Proof.
  destruct (fan_slows_down_at_min_temp
              (quiet_hw (fun _ => inject_Z 50))
              (quiet_hw (fun _ => inject_Z 55))
              args_fan_low_30 7 engaged_world engaged_world)
    as (d1 & d2 & H1 & H2 & _ & Hlt).
  - check_config.
  - vm_compute. reflexivity.
  - reflexivity.
  - reflexivity.
  - reflexivity.
  - reflexivity.
  - reflexivity.
  - reflexivity.
  - exists d1, d2. split; [exact H1|]. split; [exact H2|exact Hlt].
Defined.

(** X9.  The upper end of the ramp is inclusive: for a valid
    configuration, a tick at exactly [max_temp] writes the configured
    [fan_high] and leaves the latch on, whatever the latch was. *)
Theorem ramp_end_boundary hw args fan w milli :
  valid_config args ->
  sensor hw (reads w) = FileText milli ->
  tx_pwm_ok hw (pwm_calls w) = true ->
  (celsius milli == inject_Z (max_temp args))%Q ->
  tick_emits hw args fan w (inject_Z (fan_high args)) true.
Proof.
  intros [Hth _] Hs Hok Ht.
  destruct (valid_thresholds_Q args Hth) as [Hq1 Hq2].
  destruct Hth as [Hz1 Hz2].
  eapply tick_emits_Qeq;
    [|apply (tick_ramp hw args fan w milli Hs Hok); try lra; lia].
  rewrite ramp_formula_code by lia.
  apply ramp_formula_at_max; [lia|exact Ht].
Qed.

Lemma ramp_end_boundary_witness :
  tick_emits (quiet_hw (fun _ => 75%Q)) args_fan_high_80 7 idle_world
    (inject_Z (fan_high args_fan_high_80)) true.
Proof.
  apply (ramp_end_boundary _ args_fan_high_80 7 idle_world (75 * 1000)%Q).
  - check_config.
  - reflexivity.
  - reflexivity.
  - reflexivity.
Defined.

(** X10.  The latch says whether the fan runs: for a valid configuration
    with [fan_low > 0], a tick whose read and write succeed leaves the
    latch on exactly when the duty it wrote is above 0. *)
Theorem latch_on_iff_fan_runs hw args fan w milli :
  valid_config args ->
  0 < fan_low args ->
  sensor hw (reads w) = FileText milli ->
  tx_pwm_ok hw (pwm_calls w) = true ->
  exists d latch,
    tick_emits hw args fan w d latch /\
    (latch = true <-> (0 < d)%Q).
Proof.
  intros Hvalid Hpos Hs Hok.
  destruct (tick_bands hw args fan w milli Hvalid Hs Hok)
    as (d & latch & Hemit & T).
  exists d, latch. split; [exact Hemit|].
  destruct Hvalid as [[Hz1 Hz2] (Hlo & Hmid & Hhi)].
  rewrite Zlt_Qlt in Hpos. change (inject_Z 0) with 0%Q in Hpos.
  change (inject_Z DEFAULT_FAN_LOW) with 50%Q in T.
  change (inject_Z DEFAULT_FAN_MAX) with 100%Q in T.
  destruct T as [(-> & Hd & _)|[(-> & Hd & _)|[(-> & Hd & _)|
                 (-> & Hd & L & U)]]]; rewrite Hd.
  - split; [discriminate|]. intros H. exfalso. lra.
  - split; [intros _; lra|reflexivity].
  - split; [intros _; lra|reflexivity].
  - destruct (ramp_formula_bounds args (celsius milli) Hz2 Hmid L U)
      as [B _].
    split; [intros _; lra|reflexivity].
Qed.

Lemma latch_on_iff_fan_runs_witness :
  exists d latch,
    tick_emits hw_65 default_args 7 idle_world d latch /\
    (latch = true <-> (0 < d)%Q).
Proof.
  apply (latch_on_iff_fan_runs hw_65 default_args 7 idle_world
           (65 * 1000)%Q).
  - check_config.
  - vm_compute. reflexivity.
  - reflexivity.
  - reflexivity.
Defined.

(** X11.  Whatever the configuration, the latch and the PWM output, a
    tick whose thermal file holds a number reads the sensor once; it
    either returns having made one PWM call that wrote one duty cycle, or
    raises [lgpio.error] or [ZeroDivisionError] having written none. *)
Theorem tick_writes_one_duty_or_raises hw args fan w milli :
  sensor hw (reads w) = FileText milli ->
  reads (snd (handle_fan_speed hw args fan w)) = S (reads w) /\
  ((fst (handle_fan_speed hw args fan w) = Ok tt /\
    pwm_calls (snd (handle_fan_speed hw args fan w)) = S (pwm_calls w) /\
    exists d,
      duties (trace (snd (handle_fan_speed hw args fan w))) =
      duties (trace w) ++ [d]) \/
   (exists e,
      fst (handle_fan_speed hw args fan w) = Raise e /\
      (e = LgpioError \/ e = ZeroDivisionError) /\
      duties (trace (snd (handle_fan_speed hw args fan w))) =
      duties (trace w))).
Proof.
  intros Hs.
  destruct (tx_pwm_ok hw (pwm_calls w)) eqn:Hpwm.
  - rewrite (handle_fan_speed_io_ok hw args fan milli w Hs Hpwm).
    cbv zeta.
    destruct (REMAIN_ACTIVATED w); by_band;
      (split; [reflexivity|]);
      first [ left; split; [reflexivity|]; split; [reflexivity|];
              eexists; cbn [snd ticked trace]; rewrite duties_app;
              reflexivity
            | right; eexists; split; [reflexivity|];
              split; [right; reflexivity|]; reflexivity ].
  - rewrite (handle_fan_speed_pwm_failed hw args fan milli w Hs Hpwm).
    cbv zeta.
    destruct (REMAIN_ACTIVATED w); by_band;
      (split; [reflexivity|]); right; eexists;
      (split; [reflexivity|]);
      (split; [first [left; reflexivity|right; reflexivity]|]);
      cbn [snd write_failed with_latch tick_reads trace];
      rewrite ?duties_app, ?app_nil_r; reflexivity.
Qed.

Lemma tick_writes_one_duty_or_raises_witness :
  reads (snd (handle_fan_speed hw_40_pwm_dead default_args 7 engaged_world))
  = 1%nat /\
  duties
    (trace (snd (handle_fan_speed hw_40_pwm_dead default_args 7
                   engaged_world))) = [].
Proof.
  destruct (tick_writes_one_duty_or_raises hw_40_pwm_dead default_args 7
              engaged_world (40 * 1000)%Q eq_refl) as [Hr _].
  split; [exact Hr|reflexivity].
Defined.

(** X12.  Where a tick divides by zero.  With a readable sensor, a tick
    raises [ZeroDivisionError] exactly when [max_temp = min_temp], the
    temperature equals [min_temp] and is not below [min_cool_temp],
    whatever the latch and the PWM output; it is then raised after the
    latch was set and before anything is written. *)
Theorem zero_division_exactly_when hw args fan w milli :
  sensor hw (reads w) = FileText milli ->
  (fst (handle_fan_speed hw args fan w) = Raise ZeroDivisionError <->
   max_temp args = min_temp args /\
   (celsius milli == inject_Z (min_temp args))%Q /\
   (inject_Z (min_cool_temp args) <= celsius milli)%Q) /\
  (fst (handle_fan_speed hw args fan w) = Raise ZeroDivisionError ->
   snd (handle_fan_speed hw args fan w) = with_latch true (tick_reads w)).
Proof.
  intros Hs.
  assert (Hflat : max_temp args = min_temp args ->
                  (inject_Z (max_temp args) == inject_Z (min_temp args))%Q).
  { intros ->. reflexivity. }
  destruct (tx_pwm_ok hw (pwm_calls w)) eqn:Hpwm;
    [rewrite (handle_fan_speed_io_ok hw args fan milli w Hs Hpwm)
    |rewrite (handle_fan_speed_pwm_failed hw args fan milli w Hs Hpwm)];
    cbv zeta;
    (destruct (REMAIN_ACTIVATED w); by_band; cbn [fst snd];
     (split; [split|]);
     try discriminate; try reflexivity;
     try (intros (Hmx & Heq & Hge); specialize (Hflat Hmx);
          first [lia | exfalso; lra]);
     try (intros _; split; [lia|split; [|assumption]];
          assert (Hmx : max_temp args = min_temp args) by lia;
          specialize (Hflat Hmx); lra)).
Qed.

Lemma zero_division_exactly_when_witness :
  fst (handle_fan_speed hw_55 args_flat 7 idle_world) =
  Raise ZeroDivisionError /\
  REMAIN_ACTIVATED (snd (handle_fan_speed hw_55 args_flat 7 idle_world)) =
  true /\
  duties (trace (snd (handle_fan_speed hw_55 args_flat 7 idle_world))) = [].
Proof.
  destruct (zero_division_exactly_when hw_55 args_flat 7 idle_world
              (55 * 1000)%Q) as [Hiff Hworld].
  - reflexivity.
  - assert (Hraise : fst (handle_fan_speed hw_55 args_flat 7 idle_world) =
                     Raise ZeroDivisionError).
    { apply Hiff. split; [reflexivity|]. split; [reflexivity|].
      vm_compute. discriminate. }
    split; [exact Hraise|]. rewrite (Hworld Hraise).
    split; reflexivity.
Defined.

(** ** Runs of the loop that stay in one regime *)

Section SteadyRuns.

Variable hw : Hardware.
Variable args : Args.
Variable latch : bool.
Variable ok_temp : Q -> Prop.
Variable ok_duty : Q -> Prop.

Hypothesis steady_tick :
  forall fan w milli,
    sensor hw (reads w) = FileText milli ->
    tx_pwm_ok hw (pwm_calls w) = true ->
    REMAIN_ACTIVATED w = latch ->
    ok_temp (celsius milli) ->
    exists d,
      handle_fan_speed hw args fan w =
      (Ok tt, ticked args w latch fan d (celsius milli)) /\
      ok_duty d.

Lemma steady_run (k : nat) :
  forall (fuel : nat) (fan : Z) (w : World),
    fan_control w = Some fan ->
    REMAIN_ACTIVATED w = latch ->
    (forall i, (i < k)%nat ->
       exists milli,
         sensor hw (reads w + i) = FileText milli /\
         ok_temp (celsius milli) /\
         tx_pwm_ok hw (pwm_calls w + i) = true /\
         sleep_interrupted hw (sleeps w + i) = false) ->
    exists w' ds,
      while_True hw args (k + fuel) w = while_True hw args fuel w' /\
      REMAIN_ACTIVATED w' = latch /\
      duties (trace w') = duties (trace w) ++ ds /\
      length ds = k /\
      Forall ok_duty ds.
Proof.
  induction k as [|k IH]; intros fuel fan w Hfan Hlatch Hquiet.
  - exists w, []. split; [reflexivity|]. split; [exact Hlatch|].
    split; [rewrite app_nil_r; reflexivity|]. split; [reflexivity|].
    constructor.
  - destruct (Hquiet O ltac:(lia)) as (milli & Hs & Ht & Hpwm & Hsleep).
    rewrite Nat.add_0_r in Hs, Hpwm, Hsleep.
    destruct (steady_tick fan w milli Hs Hpwm Hlatch Ht) as (d & Hrun & Hd).
    set (w1 := ticked args w latch fan d (celsius milli)) in *.
    cbn [Nat.add].
    rewrite (while_True_next hw args (k + fuel) fan w w1 Hfan Hrun Hsleep).
    set (w2 := push (EvSleep (wait_time args)) (tick_sleeps w1)).
    destruct (IH fuel fan w2) as (w' & ds & Hloop & Hl' & Hds & Hlen & Hall).
    + cbn. exact Hfan.
    + reflexivity.
    + intros i Hi.
      destruct (Hquiet (S i) ltac:(lia)) as (m & Hs' & Ht' & Hp' & Hz').
      exists m. cbn [w2 w1 push tick_sleeps ticked reads pwm_calls sleeps].
      replace (S (reads w) + i)%nat with (reads w + S i)%nat by lia.
      replace (S (pwm_calls w) + i)%nat with (pwm_calls w + S i)%nat by lia.
      replace (S (sleeps w) + i)%nat with (sleeps w + S i)%nat by lia.
      repeat split; assumption.
    + exists w', (d :: ds). split; [exact Hloop|]. split; [exact Hl'|].
      split; [|split; [cbn; lia|constructor; assumption]].
      rewrite Hds. cbn [w2 w1 push tick_sleeps ticked trace].
      rewrite !duties_app. cbn. rewrite <- !app_assoc, ?app_nil_r.
      reflexivity.
Qed.

End SteadyRuns.

Lemma tick_while_engaged hw args fan w milli :
  valid_config args ->
  sensor hw (reads w) = FileText milli ->
  tx_pwm_ok hw (pwm_calls w) = true ->
  REMAIN_ACTIVATED w = true ->
  (inject_Z (min_cool_temp args) <= celsius milli)%Q ->
  exists d,
    handle_fan_speed hw args fan w =
    (Ok tt, ticked args w true fan d (celsius milli)) /\
    (inject_Z (Z.min DEFAULT_FAN_LOW (fan_low args)) <= d)%Q.
Proof.
  intros [Hth (Hlo & Hmid & Hhi)] Hs Hok Hl Hcool.
  destruct (valid_thresholds_Q args Hth) as [Hq1 Hq2].
  destruct Hth as [Hz1 Hz2].
  assert (Hm1 : (inject_Z (Z.min DEFAULT_FAN_LOW (fan_low args))
                 <= inject_Z DEFAULT_FAN_LOW)%Q).
  { rewrite <- Zle_Qle. lia. }
  assert (Hm2 : (inject_Z (Z.min DEFAULT_FAN_LOW (fan_low args))
                 <= inject_Z (fan_low args))%Q).
  { rewrite <- Zle_Qle. lia. }
  assert (Hm3 : (inject_Z DEFAULT_FAN_LOW <= inject_Z DEFAULT_FAN_MAX)%Q).
  { vm_compute. discriminate. }
  rewrite (handle_fan_speed_io_ok hw args fan milli w Hs Hok). cbv zeta.
  rewrite Hl. by_band; try lra; try lia;
    (eexists; split; [reflexivity|]); try lra.
  rewrite ramp_formula_code by lia.
  destruct (ramp_formula_bounds args (celsius milli) Hz2 Hmid)
    as [B _]; try assumption.
  lra.
Qed.

Lemma tick_while_idle hw args fan w milli :
  sensor hw (reads w) = FileText milli ->
  tx_pwm_ok hw (pwm_calls w) = true ->
  REMAIN_ACTIVATED w = false ->
  (celsius milli < inject_Z (min_temp args))%Q ->
  exists d,
    handle_fan_speed hw args fan w =
    (Ok tt, ticked args w false fan d (celsius milli)) /\
    (d == 0)%Q.
Proof.
  intros Hs Hok Hl Ht.
  rewrite (handle_fan_speed_io_ok hw args fan milli w Hs Hok). cbv zeta.
  rewrite Hl. by_band; try lra.
  eexists. split; reflexivity.
Qed.

(** X13.  Hysteresis over a run.  For a valid configuration, once the
    latch is on it stays on through any number of iterations whose
    readings are not below [min_cool_temp], even when they are below
    [min_temp], and every duty written in them is at least the smaller of
    50 and [fan_low]; so when [fan_low] is above 0 every one of these
    duties is above 0 and the fan is never switched off. *)
Theorem engaged_run_keeps_fan_on hw args (k fuel : nat) (fan : Z)
    (w : World) :
  valid_config args ->
  fan_control w = Some fan ->
  REMAIN_ACTIVATED w = true ->
  (forall i, (i < k)%nat ->
     exists milli,
       sensor hw (reads w + i) = FileText milli /\
       (inject_Z (min_cool_temp args) <= celsius milli)%Q /\
       tx_pwm_ok hw (pwm_calls w + i) = true /\
       sleep_interrupted hw (sleeps w + i) = false) ->
  exists w' ds,
    while_True hw args (k + fuel) w = while_True hw args fuel w' /\
    REMAIN_ACTIVATED w' = true /\
    duties (trace w') = duties (trace w) ++ ds /\
    length ds = k /\
    Forall
      (fun d => (inject_Z (Z.min DEFAULT_FAN_LOW (fan_low args)) <= d)%Q)
      ds /\
    (0 < fan_low args -> Forall (fun d => (0 < d)%Q) ds).
Proof.
  intros Hvalid Hfan Hl Hquiet.
  destruct (steady_run hw args true
              (fun t => (inject_Z (min_cool_temp args) <= t)%Q)
              (fun d => (inject_Z (Z.min DEFAULT_FAN_LOW (fan_low args))
                         <= d)%Q)
              (fun fan' w' milli Hs Hok Hl' Ht =>
                 tick_while_engaged hw args fan' w' milli Hvalid Hs Hok
                   Hl' Ht)
              k fuel fan w Hfan Hl Hquiet)
    as (w' & ds & Hloop & Hl' & Hds & Hlen & Hall).
  exists w', ds. repeat split; try assumption.
  intros Hpos.
  assert (Hmin : (0 < inject_Z (Z.min DEFAULT_FAN_LOW (fan_low args)))%Q).
  { change 0%Q with (inject_Z 0). rewrite <- Zlt_Qlt.
    unfold DEFAULT_FAN_LOW. lia. }
  eapply List.Forall_impl; [|exact Hall].
  intros d Hd. cbn beta in Hd. lra.
Qed.

Lemma engaged_run_keeps_fan_on_witness :
  exists w' ds,
    while_True hw_cooling default_args (4 + 0) engaged_world =
    while_True hw_cooling default_args 0 w' /\
    REMAIN_ACTIVATED w' = true /\
    duties (trace w') = ds /\
    length ds = 4%nat /\
    Forall (fun d => (50 <= d)%Q) ds /\
    Forall (fun d => (0 < d)%Q) ds.
Proof.
  destruct (engaged_run_keeps_fan_on hw_cooling default_args 4 0 7
              engaged_world)
    as (w' & ds & Hloop & Hl & Hds & Hlen & Hall & Hpos).
  - check_config.
  - reflexivity.
  - reflexivity.
  - intros i Hi. destruct i as [|[|[|[|i]]]]; [ | | | |lia];
      (eexists; split; [reflexivity|]; split;
       [vm_compute; discriminate|split; reflexivity]).
  - exists w', ds. repeat split; try assumption.
    apply Hpos. vm_compute. reflexivity.
Defined.

(** X14.  While the latch is off and the readings stay below [min_temp],
    the latch stays off and every duty written is 0, for any number of
    iterations and any configuration. *)
Theorem idle_run_keeps_fan_off hw args (k fuel : nat) (fan : Z)
    (w : World) :
  fan_control w = Some fan ->
  REMAIN_ACTIVATED w = false ->
  (forall i, (i < k)%nat ->
     exists milli,
       sensor hw (reads w + i) = FileText milli /\
       (celsius milli < inject_Z (min_temp args))%Q /\
       tx_pwm_ok hw (pwm_calls w + i) = true /\
       sleep_interrupted hw (sleeps w + i) = false) ->
  exists w' ds,
    while_True hw args (k + fuel) w = while_True hw args fuel w' /\
    REMAIN_ACTIVATED w' = false /\
    duties (trace w') = duties (trace w) ++ ds /\
    length ds = k /\
    Forall (fun d => (d == 0)%Q) ds.
Proof.
  intros Hfan Hl Hquiet.
  refine (steady_run hw args false
            (fun t => (t < inject_Z (min_temp args))%Q)
            (fun d => (d == 0)%Q) _ k fuel fan w Hfan Hl Hquiet).
  intros fan' w' milli Hs Hok Hl' Ht.
  apply tick_while_idle; assumption.
Qed.

Lemma idle_run_keeps_fan_off_witness :
  exists w' ds,
    while_True hw_warming default_args (4 + 0) idle_world =
    while_True hw_warming default_args 0 w' /\
    REMAIN_ACTIVATED w' = false /\
    duties (trace w') = ds /\
    length ds = 4%nat /\
    Forall (fun d => (d == 0)%Q) ds.
Proof.
  destruct (idle_run_keeps_fan_off hw_warming default_args 4 0 7
              idle_world)
    as (w' & ds & Hloop & Hl & Hds & Hlen & Hall).
  - reflexivity.
  - reflexivity.
  - intros i Hi. destruct i as [|[|[|[|i]]]]; [ | | | |lia];
      (eexists; split; [reflexivity|]; split;
       [vm_compute; reflexivity|split; reflexivity]).
  - exists w', ds. repeat split; assumption.
Defined.

(** ** Start-up *)

Lemma getint_result (cfg : Ini) (name : string) (fallback : Z) (w : World) :
  getint cfg "FanControl" name fallback w =
  match text_error (ini_option cfg name) with
  | Some e => (Raise e, w)
  | None => (Ok (ini_int cfg name fallback), w)
  end.
Proof.
  unfold getint, ini_int, ini_option, text_error.
  destruct (cfg !! "FanControl"%string) as [opts|]; [|reflexivity].
  destruct (opts !! name) as [[z|txt|txt]|]; reflexivity.
Qed.

Lemma config_parsing_result (cfg : Ini) (args : Args) (w : World) :
  config_parsing cfg args w =
  match config_error cfg with
  | Some e => (Raise e, w)
  | None => (Ok (config_applied cfg args), w)
  end.
Proof.
  unfold config_parsing, config_error, int_options, config_applied.
  cbn [first_error].
  unfold mbind, M_bind. rewrite !getint_result.
  repeat match goal with
    | |- context [text_error ?v] =>
        destruct (text_error v); try reflexivity;
        rewrite ?getint_result
    end.
Qed.

Lemma ini_int_twice (cfg : Ini) (name : string) (fallback : Z) :
  ini_int cfg name (ini_int cfg name fallback) = ini_int cfg name fallback.
Proof.
  unfold ini_int.
  destruct (ini_option cfg name) as [[z|txt|txt]|]; reflexivity.
Qed.

(** X15.  [config_parsing] touches nothing but [args].  It stops at the
    first of the eight integer options, in the order in which they are
    read, whose text cannot be turned into an integer, with the exception
    of that text: [ValueError] when [int] rejects it, an interpolation
    error when the interpolation does (as for [80%]).  Otherwise each of
    the eight settings becomes the file's integer where the file has the
    option and keeps its value where the section or the option is
    missing, and [config] and [verbose] are kept. *)
Theorem config_parsing_outcome (cfg : Ini) (args : Args) (w : World) :
  config_parsing cfg args w =
  match config_error cfg with
  | Some e => (Raise e, w)
  | None => (Ok (config_applied cfg args), w)
  end.
Proof. exact (config_parsing_result cfg args w). Qed.

(** X16.  Reading the same file again changes nothing: if [config_parsing]
    accepts a file, running it on its own result returns that result. *)
Theorem config_parsing_idempotent (cfg : Ini) (args args' : Args)
    (w w' : World) :
  config_parsing cfg args w = (Ok args', w') ->
  config_parsing cfg args' w' = (Ok args', w').
Proof.
  rewrite !config_parsing_result.
  destruct (config_error cfg); [discriminate|].
  intros Heq. injection Heq as <- <-.
  unfold config_applied. cbn. rewrite !ini_int_twice. reflexivity.
Qed.

Lemma config_parsing_idempotent_witness :
  config_parsing (thresholds_ini 60 45 80 30 90)
    (config_applied (thresholds_ini 60 45 80 30 90) default_args)
    initial_world =
  (Ok (config_applied (thresholds_ini 60 45 80 30 90) default_args),
   initial_world).
Proof.
  apply (config_parsing_idempotent (thresholds_ini 60 45 80 30 90)
           default_args _ initial_world initial_world).
  vm_compute. reflexivity.
Defined.

(** X17.  The file wins over the command line.  When the configuration
    file exists and start-up succeeds, each of the eight settings is the
    file's integer if the file has the option, whatever was given on the
    command line, and the command-line value (or the default) if the file
    does not have it. *)
Theorem file_overrides_command_line (cli : CommandLine)
    (files : gmap string Ini) (cfg : Ini) (w w' : World) (args : Args)
    (name : string) :
  files !! config (arguments_parsing cli) = Some cfg ->
  startup cli files w = (Ok args, w') ->
  In name int_options ->
  (forall z, ini_option cfg name = Some (IntText z) ->
             int_field name args = z) /\
  (ini_option cfg name = None ->
   int_field name args = int_field name (arguments_parsing cli)).
Proof.
  intros Hfile Hrun Hname.
  unfold startup in Hrun. rewrite Hfile in Hrun.
  rewrite config_parsing_result in Hrun.
  destruct (config_error cfg); [discriminate|].
  injection Hrun as <- <-.
  unfold int_options in Hname. cbn [In] in Hname.
  repeat (destruct Hname as [<-|Hname]);
    try (split; [intros z Hopt|intros Hopt];
         cbn; unfold ini_int; rewrite Hopt; reflexivity).
  destruct Hname.
Qed.

Lemma file_overrides_command_line_witness :
  exists args,
    startup cli_60_40 files_min_temp_45 initial_world =
    (Ok args, initial_world) /\
    min_temp args = 45 /\
    fan_low args = 40.
Proof.
  exists (config_applied
            {[ "FanControl"%string := {[ "min_temp"%string := IntText 45 ]} ]}
            (arguments_parsing cli_60_40)).
  assert (Hrun : startup cli_60_40 files_min_temp_45 initial_world =
                 (Ok (config_applied
                        {[ "FanControl"%string :=
                             {[ "min_temp"%string := IntText 45 ]} ]}
                        (arguments_parsing cli_60_40)), initial_world)).
  { vm_compute. reflexivity. }
  split; [exact Hrun|]. split.
  - apply (proj1 (file_overrides_command_line cli_60_40 files_min_temp_45
                    _ initial_world initial_world _ "min_temp"
                    eq_refl Hrun ltac:(cbn; tauto))).
    reflexivity.
  - apply (proj2 (file_overrides_command_line cli_60_40 files_min_temp_45
                    _ initial_world initial_world _ "fan_low"
                    eq_refl Hrun ltac:(cbn; tauto))).
    reflexivity.
Defined.

(** X18.  A file that gives one of the eight options a text that cannot be
    turned into an integer stops the script before [main], with the
    exception of the first such option ([ValueError] from [int], or an
    interpolation error): nothing is logged and the hardware is not
    touched. *)
Theorem bad_config_stops_before_main (hw : Hardware) (cli : CommandLine)
    (files : gmap string Ini) (cfg : Ini) (fuel : nat) (w : World)
    (e : Exn) :
  files !! config (arguments_parsing cli) = Some cfg ->
  config_error cfg = Some e ->
  script hw cli files fuel w = (Raise e, w) /\
  (e = ValueError \/ e = InterpolationError).
Proof.
  intros Hfile Hbad. split.
  - unfold script, startup. rewrite Hfile.
    unfold mbind at 1. unfold M_bind.
    rewrite config_parsing_result, Hbad. reflexivity.
  - revert Hbad. unfold config_error, int_options. cbn [first_error].
    unfold text_error.
    repeat match goal with
      | |- context [ini_option cfg ?n] =>
          destruct (ini_option cfg n) as [[?|?|?]|]
      end;
      intros Heq; try discriminate; injection Heq as <-; auto.
Qed.

Lemma bad_config_stops_before_main_witness :
  script hw_65 no_options files_bad_max_temp 5 initial_world =
  (Raise ValueError, initial_world) /\
  script hw_65 no_options files_percent_max_temp 5 initial_world =
  (Raise InterpolationError, initial_world).
Proof.
  split.
  - eapply (proj1 (bad_config_stops_before_main hw_65 no_options
                     files_bad_max_temp _ 5 initial_world ValueError
                     eq_refl eq_refl)).
  - eapply (proj1 (bad_config_stops_before_main hw_65 no_options
                     files_percent_max_temp _ 5 initial_world
                     InterpolationError eq_refl eq_refl)).
Defined.

(** X19.  Without settings in a file the command line decides: when the
    configuration file does not exist, or exists without a [FanControl]
    section, start-up returns the namespace of the command line (options
    given, defaults otherwise) unchanged. *)
Theorem startup_without_file_settings (cli : CommandLine)
    (files : gmap string Ini) (w : World) :
  files !! config (arguments_parsing cli) = None \/
  (exists cfg,
     files !! config (arguments_parsing cli) = Some cfg /\
     cfg !! "FanControl"%string = None) ->
  startup cli files w = (Ok (arguments_parsing cli), w).
Proof.
  intros [Hnone|(cfg & Hfile & Hsec)]; unfold startup.
  - rewrite Hnone. reflexivity.
  - rewrite Hfile, config_parsing_result.
    generalize (arguments_parsing cli). intros args.
    unfold config_error, int_options. cbn [first_error].
    unfold config_applied, ini_int, text_error, ini_option.
    rewrite Hsec. cbn. destruct args. reflexivity.
Qed.

Lemma startup_without_file_settings_witness :
  startup cli_60_40 {[ DEFAULT_CONFIG_FILE := ∅ ]} initial_world =
  (Ok (arguments_parsing cli_60_40), initial_world).
Proof.
  apply (startup_without_file_settings cli_60_40).
  right. exists ∅. split; reflexivity.
Defined.

(** X20.  Start-up primes the fan with the configured value: when the chip
    opens, the pin is claimed and the first PWM write goes through, [main]
    enters its loop having bound [fan_control] to the opened chip and
    written one duty cycle, the configured [fan_low]; the sensor has not
    been read and the latch is untouched. *)
Theorem startup_primes_fan hw args (fuel : nat) (h : Z) (w : World) :
  chip_open hw = Some h ->
  claim_ok hw = true ->
  tx_pwm_ok hw (pwm_calls w) = true ->
  exists ws,
    main_try hw args fuel w = while_True hw args fuel ws /\
    fan_control ws = Some h /\
    duties (trace ws) = duties (trace w) ++ [inject_Z (fan_low args)] /\
    reads ws = reads w /\
    REMAIN_ACTIVATED ws = REMAIN_ACTIVATED w.
Proof.
  intros Hopen Hclaim Hpwm.
  exists (loop_entry args h w).
  split; [apply main_try_enters_loop; assumption|].
  split; [reflexivity|].
  split; [|split; reflexivity].
  cbn. rewrite !duties_app. cbn. rewrite <- !app_assoc. cbn. reflexivity.
Qed.

Lemma startup_primes_fan_witness :
  exists ws,
    main_try hw_65 args_fan_low_30 3 initial_world =
    while_True hw_65 args_fan_low_30 3 ws /\
    duties (trace ws) = [30%Q].
Proof.
  destruct (startup_primes_fan hw_65 args_fan_low_30 3 7 initial_world)
    as (ws & Htry & _ & Hd & _); try reflexivity.
  exists ws. split; [exact Htry|exact Hd].
Defined.
